(** * blivet.tasks.fssize: filesystem size extraction

    A shallow embedding of [blivet/tasks/fssize.py] together with the
    Python string primitives it relies on ([str.strip], [str.split],
    [str.splitlines], [str.startswith], [int]), followed by the
    properties of the two extraction tasks, [FSSize] and [TmpFSSize]. *)

From Stdlib Require Import List Bool Ascii String ZArith Lia.
Import ListNotations.

Local Open Scope Z_scope.

(** ** Python strings *)

(** A Python [str] is a sequence of code points; the model keeps the
    code points below 256, which is where the text of the diagnostic
    tools lives. *)
Definition str := list ascii.

(** String literals of the source. *)
Definition lit (s : string) : str := list_ascii_of_string s.

Definition str_eqb (a b : str) : bool :=
  if list_eq_dec ascii_dec a b then true else false.

Module Py.

(** [str.isspace] of one code point, for the code points below 256:
    TAB, LF, VT, FF, CR, FS, GS, RS, US, SPACE, NEL and NBSP. *)
Definition isspace (c : ascii) : bool :=
  let n := nat_of_ascii c in
  ((9 <=? n) && (n <=? 13) || (28 <=? n) && (n <=? 31) ||
   (n =? 32) || (n =? 133) || (n =? 160))%nat.

(** The line boundaries of [str.splitlines] below 256:
    LF, VT, FF, CR, FS, GS, RS and NEL. *)
Definition islinebreak (c : ascii) : bool :=
  let n := nat_of_ascii c in
  ((10 <=? n) && (n <=? 13) || (28 <=? n) && (n <=? 30) || (n =? 133))%nat.

Definition is_cr (c : ascii) : bool := (nat_of_ascii c =? 13)%nat.
Definition is_lf (c : ascii) : bool := (nat_of_ascii c =? 10)%nat.

Fixpoint dropspace (s : str) : str :=
  match s with
  | [] => []
  | c :: s' => if isspace c then dropspace s' else s
  end.

Definition lstrip (s : str) : str := dropspace s.
Definition rstrip (s : str) : str := rev (dropspace (rev s)).

(** [s.strip()] *)
Definition strip (s : str) : str := rstrip (lstrip s).

(** [s.startswith(p)] *)
Fixpoint startswith (s p : str) {struct p} : bool :=
  match p, s with
  | [], _ => true
  | _ :: _, [] => false
  | a :: p', b :: s' => if ascii_dec a b then startswith s' p' else false
  end.

(** [s.split()]: the maximal runs of non-whitespace code points.
    [cur] holds the current run, reversed. *)
Fixpoint split_aux (cur : str) (s : str) : list str :=
  match s with
  | [] => match cur with [] => [] | _ => [rev cur] end
  | c :: s' =>
      if isspace c
      then match cur with
           | [] => split_aux [] s'
           | _ => rev cur :: split_aux [] s'
           end
      else split_aux (c :: cur) s'
  end.

Definition split (s : str) : list str := split_aux [] s.

(** [s.splitlines()]: the text is cut at every line boundary, CR LF
    counts as one boundary, and a boundary at the very end opens no
    further line. *)
Fixpoint splitlines_aux (cur : str) (s : str) : list str :=
  match s with
  | [] => match cur with [] => [] | _ => [rev cur] end
  | c :: s' =>
      if is_cr c
      then match s' with
           | d :: s'' =>
               if is_lf d then rev cur :: splitlines_aux [] s''
               else rev cur :: splitlines_aux [] s'
           | [] => rev cur :: splitlines_aux [] s'
           end
      else if islinebreak c then rev cur :: splitlines_aux [] s'
      else splitlines_aux (c :: cur) s'
  end.

Definition splitlines (s : str) : list str := splitlines_aux [] s.

(** [int(field)]: the whitespace around the number is dropped, then an
    optional sign and a non-empty run of decimal digits in which single
    underscores may separate digits.  [None] stands for [ValueError].
    The whitespace that [int] drops is TAB, LF, VT, FF, CR and SPACE and,
    of the code points above 127, NEL and NBSP; unlike [str.strip] it
    keeps the separators FS, GS, RS and US. *)
Definition int_isspace (c : ascii) : bool :=
  let n := nat_of_ascii c in
  ((9 <=? n) && (n <=? 13) || (n =? 32) || (n =? 133) || (n =? 160))%nat.

Fixpoint int_dropspace (s : str) : str :=
  match s with
  | [] => []
  | c :: s' => if int_isspace c then int_dropspace s' else s
  end.

Definition int_trim (s : str) : str :=
  rev (int_dropspace (rev (int_dropspace s))).

Definition digit (c : ascii) : option Z :=
  let n := nat_of_ascii c in
  if ((48 <=? n) && (n <=? 57))%nat then Some (Z.of_nat n - 48) else None.

Definition is_underscore (c : ascii) : bool := (nat_of_ascii c =? 95)%nat.
Definition is_plus (c : ascii) : bool := (nat_of_ascii c =? 43)%nat.
Definition is_minus (c : ascii) : bool := (nat_of_ascii c =? 45)%nat.

Fixpoint digits (acc : Z) (after_digit : bool) (s : str) : option Z :=
  match s with
  | [] => if after_digit then Some acc else None
  | c :: s' =>
      match digit c with
      | Some d => digits (10 * acc + d) true s'
      | None =>
          if is_underscore c && after_digit then digits acc false s'
          else None
      end
  end.

Definition int (s : str) : option Z :=
  match int_trim s with
  | [] => None
  | c :: s' =>
      if is_minus c then option_map Z.opp (digits 0 false s')
      else if is_plus c then digits 0 false s'
      else digits 0 false (c :: s')
  end.

Definition LF : ascii := ascii_of_nat 10.

(** The text whose lines are [ls], each closed by a line feed. *)
Definition unlines (ls : list str) : str :=
  List.concat (map (fun l => l ++ [LF]) ls).

End Py.

(** ** Collaborators of the module *)

(** Modelled from the spec: the size value type ([blivet/size.py] is not
    part of the sources at hand).  A size is a number of bytes; it is
    built from an integer byte count or from a magnitude followed by a
    unit, and it can be multiplied by an integer.  The only unit this
    module writes is [KiB]. *)
Module Size.

Record t := of_int { bytes : Z }.

Definition unit_factor (u : str) : option Z :=
  if str_eqb u (lit "KiB") then Some 1024 else None.

(** [Size(spec)] for a string; [None] stands for [ValueError]. *)
Definition of_str (spec : str) : option t :=
  match Py.split spec with
  | [magnitude; u] =>
      match Py.int magnitude, unit_factor u with
      | Some n, Some f => Some (of_int (n * f))
      | _, _ => None
      end
  | _ => None
  end.

(** [n * a_size] *)
Definition rmul (n : Z) (s : t) : t := of_int (n * bytes s).

End Size.

(** The filesystem object, as far as this module reads it. *)
Record FS := {
  _current_info : option str;
  status : bool;
  systemMountpoint : str
}.

(** [_tags = ("count", "size")] *)
Inductive key := count | size.

Definition _tags : list key := [count; size].

Definition key_name (k : key) : str :=
  match k with count => lit "count" | size => lit "size" end.

(** [_Tags = namedtuple("_Tags", _tags)] with [getattr]. *)
Record _Tags := { of_count : str; of_size : str }.

Definition getattr (tags : _Tags) (k : key) : str :=
  match k with count => of_count tags | size => of_size tags end.

(** The messages of the module, one constructor per format string. *)
Inductive message :=
| NoInfo                            (* FSSize.unable *)
| AppNotAvailable (app : str)       (* TmpFSSize.unavailable *)
| NotMounted                        (* TmpFSSize.unready *)
| TwoMatches (k : key)
| ParseInfoFailed (k : key)
| ExecFailed (command : list str)
| ParseOutputFailed (command : list str).

(** The format string of a message, as the source spells it. *)
Definition template (m : message) : string :=
  match m with
  | NoInfo => "No filesystem info available to extract current size from."
  | AppNotAvailable _ => "application %s is not available"
  | NotMounted => "filesystem is not mounted"
  | TwoMatches _ => "found two matches for key %s"
  | ParseInfoFailed _ => "Failed to parse info for %s."
  | ExecFailed _ => "Failed to execute command %s."
  | ParseOutputFailed _ => "Failed to parse output of command %s."
  end.

Inductive exn :=
| FSError (m : message)
| ValueError
| AttributeError
| TypeError.

Inductive result (A : Type) :=
| Return (a : A)
| Raise (e : exn).

Arguments Return {A} a.
Arguments Raise {A} e.

(** What [util.run_program_and_capture_output] hands back: the exit
    status with the captured output, or [OSError] when the process
    could not be started. *)
Inductive run_outcome :=
| Exited (ret : Z) (out : str)
| OSError.

(** The environment of a task: whether [df] was located, how a command
    behaves when run, and the commands spawned so far. *)
Record world := {
  app_available : bool;
  behaviour : list str -> run_outcome;
  spawned : list (list str)
}.

Definition run_program_and_capture_output (argv : list str) (w : world)
  : run_outcome * world :=
  (behaviour w argv,
   {| app_available := app_available w;
      behaviour := behaviour w;
      spawned := spawned w ++ [argv] |}).

(** A readiness predicate answers [False] ([None]) or a message. *)
Definition por (a b : option message) : option message :=
  match a with Some m => Some m | None => b end.

(** Modelled from the spec: the task interface ([blivet/tasks/task.py] is
    not part of the sources at hand).  A task has the three readiness
    predicates; [impossible] is the first non-empty message among
    [unavailable], [unready] and [unable], in that order. *)
Class Task (T : Type) := {
  unavailable : world -> T -> option message;
  unready : world -> T -> option message;
  unable : world -> T -> option message
}.

Definition impossible {T} `{Task T} (w : world) (self : T) : option message :=
  por (por (unavailable w self) (unready w self)) (unable w self).

(** ** [FSSize]: size from the captured diagnostic text *)

Module FSSize.

Record t := { tags : _Tags; fs : FS }.

(** The class method [available]. *)
Definition available : bool := true.

Definition unavailable (self : t) : option message := None.

Definition unready (self : t) : option message := None.

Definition unable (self : t) : option message :=
  match _current_info (fs self) with
  | None => Some NoInfo
  | Some _ => None
  end.

#[global] Instance task : Task t :=
  Build_Task t (fun _ => unavailable) (fun _ => unready) (fun _ => unable).

(** The dictionary [values], with its two keys. *)
Record values := { at_count : option Z; at_size : option Z }.

Definition get (v : values) (k : key) : option Z :=
  match k with count => at_count v | size => at_size v end.

Definition set (v : values) (k : key) (n : Z) : values :=
  match k with
  | count => {| at_count := Some n; at_size := at_size v |}
  | size => {| at_count := at_count v; at_size := Some n |}
  end.

Definition initial : values := {| at_count := None; at_size := None |}.

Definition is_None {A} (o : option A) : bool :=
  match o with None => true | Some _ => false end.

(** [next((k for k in _tags if line.startswith(getattr(self.tags, k))), None)] *)
Definition find_key (tags : _Tags) (line : str) : option key :=
  find (fun k => Py.startswith line (getattr tags k)) _tags.

(** The inner loop over the reversed fields: the first field that [int]
    accepts ends the loop. *)
Fixpoint first_int (fields : list str) : option Z :=
  match fields with
  | [] => None
  | field :: rest =>
      match Py.int field with
      | Some n => Some n
      | None => first_int rest
      end
  end.

Definition line_value (line : str) : option Z :=
  first_int (rev (Py.split line)).

(** The loop over the lines; [inr k] is the duplicate-key error. *)
Fixpoint scan (tags : _Tags) (v : values) (lines : list str) : values + key :=
  match lines with
  | [] => inl v
  | line :: rest =>
      match find_key tags line with
      | None => scan tags v rest
      | Some k =>
          match get v k with
          | Some _ => inr k
          | None =>
              match line_value line with
              | Some n => scan tags (set v k n) rest
              | None => scan tags v rest
              end
          end
      end
  end.

Definition doTask (self : t) (w : world) : result Size.t * world :=
  match impossible w self with
  | Some error_msg => (Raise (FSError error_msg), w)
  | None =>
      match _current_info (fs self) with
      | None => (Raise AttributeError, w)
      | Some info =>
          match scan (tags self) initial (map Py.strip (Py.splitlines info)) with
          | inr k => (Raise (FSError (TwoMatches k)), w)
          | inl v =>
              match find (fun k => is_None (get v k)) _tags with
              | Some missing => (Raise (FSError (ParseInfoFailed missing)), w)
              | None =>
                  match get v count, get v size with
                  | Some c, Some s => (Return (Size.rmul c (Size.of_int s)), w)
                  | _, _ => (Raise TypeError, w)
                  end
              end
          end
      end
  end.

End FSSize.

(** The five concrete subclasses. *)
Inductive variant := Ext2FSSize | JFSSize | NTFSSize | ReiserFSSize | XFSSize.

Definition variant_tags (c : variant) : _Tags :=
  match c with
  | Ext2FSSize =>
      {| of_size := lit "Block size:"; of_count := lit "Block count:" |}
  | JFSSize =>
      {| of_size := lit "Physical block size:"; of_count := lit "Aggregate size:" |}
  | NTFSSize =>
      {| of_size := lit "Cluster Size:"; of_count := lit "Volume Size in Clusters:" |}
  | ReiserFSSize =>
      {| of_size := lit "Blocksize:"; of_count := lit "Count of blocks on the device:" |}
  | XFSSize =>
      {| of_size := lit "blocksize ="; of_count := lit "dblocks =" |}
  end.

(** [cls(an_fs)] for a concrete subclass. *)
Definition new (c : variant) (an_fs : FS) : FSSize.t :=
  {| FSSize.tags := variant_tags c; FSSize.fs := an_fs |}.

(** ** [TmpFSSize]: size from [df] on the mount point *)

Module TmpFSSize.

Record t := { fs : FS }.

(** Modelled from the spec: [availability.Application] is not part of the
    sources at hand; its string form is the name of the executable. *)
Definition app_name : str := lit "df".

(** The class method [available]: [cls._app.available]. *)
Definition available (w : world) : bool := app_available w.

Definition unavailable (w : world) (self : t) : option message :=
  if negb (app_available w) then Some (AppNotAvailable app_name) else None.

Definition unready (self : t) : option message :=
  if negb (status (fs self)) then Some NotMounted else None.

Definition unable (self : t) : option message := None.

#[global] Instance task : Task t :=
  Build_Task t unavailable (fun _ => unready) (fun _ => unable).

Definition _sizeCommand (self : t) : list str :=
  [app_name; systemMountpoint (fs self); lit "--output=size"].

Definition doTask (self : t) (w : world) : result Size.t * world :=
  match impossible w self with
  | Some error_msg => (Raise (FSError error_msg), w)
  | None =>
      match run_program_and_capture_output (_sizeCommand self) w with
      | (OSError, w') => (Raise (FSError (ExecFailed (_sizeCommand self))), w')
      | (Exited ret out, w') =>
          if negb (ret =? 0)
          then (Raise (FSError (ExecFailed (_sizeCommand self))), w')
          else
            let lines := Py.splitlines out in
            if negb (Nat.eqb (List.length lines) 2)
               || negb (str_eqb (Py.strip (nth 0 lines [])) (lit "1K-blocks"))
            then (Raise (FSError (ParseOutputFailed (_sizeCommand self))), w')
            else
              match Size.of_str (nth 1 lines [] ++ lit " KiB") with
              | Some s => (Return s, w')
              | None => (Raise ValueError, w')
              end
      end
  end.

End TmpFSSize.

(** ** Vocabulary of the statements *)

(** A string made of whitespace only. *)
Definition blank (s : str) : Prop := Forall (fun c => Py.isspace c = true) s.

(** A string without any line boundary. *)
Definition oneline (s : str) : Prop :=
  Forall (fun c => Py.islinebreak c = false) s.

(** What [split_aux] emits for the run it holds when the text ends. *)
Definition flush (cur : str) : list str :=
  match cur with [] => [] | _ => [rev cur] end.

Definition key_eqb (a b : key) : bool :=
  match a, b with
  | count, count | size, size => true
  | _, _ => false
  end.

(** The other key of [_tags]. *)
Definition other (k : key) : key :=
  match k with count => size | size => count end.

(** The lines of a text as the loop of [doTask] meets them. *)
Definition info_lines (info : str) : list str :=
  map Py.strip (Py.splitlines info).

(** [line] is a line of key [k]: the loop files it under [k]. *)
Definition has_key (tags : _Tags) (k : key) (line : str) : bool :=
  match FSSize.find_key tags line with
  | Some k' => key_eqb k' k
  | None => false
  end.

(** The integer that the lines of key [k] carry: that of the first
    line of the key with an integer field. *)
Fixpoint resolve (tags : _Tags) (k : key) (lines : list str) : option Z :=
  match lines with
  | [] => None
  | line :: rest =>
      if has_key tags k line
      then match FSSize.line_value line with
           | Some n => Some n
           | None => resolve tags k rest
           end
      else resolve tags k rest
  end.

(** The first key, in the order of [_tags], that no line resolves. *)
Definition first_unresolved (tags : _Tags) (lines : list str) : option key :=
  find (fun k => FSSize.is_None (resolve tags k lines)) _tags.

(** What [doTask] makes of the stripped lines once the task is possible. *)
Definition extract (tags : _Tags) (lines : list str) : result Size.t :=
  match FSSize.scan tags FSSize.initial lines with
  | inr k => Raise (FSError (TwoMatches k))
  | inl v =>
      match FSSize.get v count, FSSize.get v size with
      | None, _ => Raise (FSError (ParseInfoFailed count))
      | Some _, None => Raise (FSError (ParseInfoFailed size))
      | Some c, Some s => Return (Size.of_int (c * s))
      end
  end.

(** Neither tag of the pair is a prefix of the other, so no line starts
    with both. *)
Definition exclusive (tags : _Tags) : Prop :=
  Py.startswith (of_count tags) (of_size tags) = false /\
  Py.startswith (of_size tags) (of_count tags) = false.

(** The filesystem object once [info] was captured for it. *)
Definition capture (an_fs : FS) (info : str) : FS :=
  {| _current_info := Some info;
     status := status an_fs;
     systemMountpoint := systemMountpoint an_fs |}.

(** [l'] is [l] with whitespace added at its ends. *)
Definition padded (l l' : str) : Prop :=
  exists w1 w2, blank w1 /\ blank w2 /\ l' = w1 ++ l ++ w2.

(** Sample objects: a filesystem nothing is known about, and a world in
    which nothing was run yet. *)
Definition blank_fs : FS :=
  {| _current_info := None; status := false; systemMountpoint := lit "/mnt" |}.

Definition quiet : world :=
  {| app_available := true; behaviour := fun _ => OSError; spawned := [] |}.

Definition onelineb (ls : list str) : bool :=
  forallb (forallb (fun c => negb (Py.islinebreak c))) ls.

(** Some line of a key comes after a line of the same key that has an
    integer field. *)
Definition repeated (tags : _Tags) (lines : list str) : Prop :=
  exists pre l1 mid l2 post k n,
    lines = pre ++ l1 :: mid ++ l2 :: post /\
    FSSize.find_key tags l1 = Some k /\
    FSSize.line_value l1 = Some n /\
    FSSize.find_key tags l2 = Some k.

Definition CR : ascii := ascii_of_nat 13.

(** The text whose lines are [ls], each closed by CR LF. *)
Definition unlines_crlf (ls : list str) : str :=
  List.concat (map (fun l => l ++ [CR; Py.LF]) ls).

(** An [FSSize] task with the tags [tags] on a filesystem whose captured
    info is [info]. *)
Definition task_on (tags : _Tags) (an_fs : FS) (info : str) : FSSize.t :=
  {| FSSize.tags := tags; FSSize.fs := capture an_fs info |}.

(** * Properties of the string primitives *)

Lemma dropspace_blank (w : str) : blank w -> Py.dropspace w = [].
Proof.
  induction 1 as [|c w Hc _ IH]; simpl; [reflexivity|].
  now rewrite Hc.
Qed.

Lemma dropspace_app_blank (w s : str) :
  blank w -> Py.dropspace (w ++ s) = Py.dropspace s.
Proof.
  induction 1 as [|c w Hc _ IH]; simpl; [reflexivity|].
  now rewrite Hc.
Qed.

Lemma dropspace_app (x y : str) :
  Py.dropspace (x ++ y) =
  match Py.dropspace x with
  | [] => Py.dropspace y
  | _ => Py.dropspace x ++ y
  end.
Proof.
  induction x as [|c x IH]; simpl; [reflexivity|].
  destruct (Py.isspace c); [exact IH | reflexivity].
Qed.

Lemma dropspace_decomp (s : str) :
  exists w, blank w /\ s = w ++ Py.dropspace s.
Proof.
  induction s as [|c s [w [Hw Hs]]]; simpl.
  - exists []. split; [constructor | reflexivity].
  - destruct (Py.isspace c) eqn:Hc.
    + exists (c :: w). split; [now constructor|]. simpl. now f_equal.
    + exists []. split; [constructor | reflexivity].
Qed.

Lemma dropspace_head (s : str) (c : ascii) (r : str) :
  Py.dropspace s = c :: r -> Py.isspace c = false.
Proof.
  induction s as [|d s IH]; simpl; [discriminate|].
  destruct (Py.isspace d) eqn:Hd; [exact IH|].
  intros H. injection H as -> _. exact Hd.
Qed.

Lemma blank_rev (w : str) : blank w -> blank (rev w).
Proof. unfold blank. intros H. now apply Forall_rev. Qed.

Lemma blank_app (a b : str) : blank a -> blank b -> blank (a ++ b).
Proof. unfold blank. intros. apply Forall_app. now split. Qed.

Lemma rstrip_app_blank (s w : str) :
  blank w -> Py.rstrip (s ++ w) = Py.rstrip s.
Proof.
  intros Hw. unfold Py.rstrip. rewrite rev_app_distr.
  now rewrite dropspace_app_blank by now apply blank_rev.
Qed.

Lemma rstrip_decomp (s : str) : exists w, blank w /\ s = Py.rstrip s ++ w.
Proof.
  destruct (dropspace_decomp (rev s)) as [w [Hw Hs]].
  exists (rev w). split; [now apply blank_rev|].
  unfold Py.rstrip. rewrite <- rev_app_distr, <- Hs. now rewrite rev_involutive.
Qed.

Lemma strip_pad (w1 s w2 : str) :
  blank w1 -> blank w2 -> Py.strip (w1 ++ s ++ w2) = Py.strip s.
Proof.
  intros H1 H2. unfold Py.strip, Py.lstrip.
  rewrite dropspace_app_blank by assumption.
  rewrite dropspace_app.
  destruct (Py.dropspace s) as [|c r] eqn:Hs.
  - now rewrite dropspace_blank.
  - now apply rstrip_app_blank.
Qed.

Lemma split_aux_blank (cur w : str) : blank w -> Py.split_aux cur w = flush cur.
Proof.
  intros Hw. revert cur.
  induction Hw as [|c w Hc _ IH]; intros cur; simpl; [reflexivity|].
  rewrite Hc. destruct cur; now rewrite IH.
Qed.

Lemma split_aux_app_blank (cur s w : str) :
  blank w -> Py.split_aux cur (s ++ w) = Py.split_aux cur s.
Proof.
  intros Hw. revert cur.
  induction s as [|c s IH]; intros cur; simpl.
  - now apply split_aux_blank.
  - destruct (Py.isspace c); [destruct cur|]; now rewrite IH.
Qed.

Lemma split_aux_app_space (cur a : str) (c : ascii) (b : str) :
  Py.isspace c = true ->
  Py.split_aux cur (a ++ c :: b) = Py.split_aux cur a ++ Py.split b.
Proof.
  intros Hc. revert cur.
  induction a as [|d a IH]; intros cur; simpl.
  - rewrite Hc. destruct cur; reflexivity.
  - destruct (Py.isspace d); [destruct cur|]; now rewrite IH.
Qed.

Lemma split_dropspace (s : str) : Py.split (Py.dropspace s) = Py.split s.
Proof.
  unfold Py.split.
  induction s as [|c s IH]; simpl; [reflexivity|].
  destruct (Py.isspace c) eqn:Hc; [exact IH|].
  simpl. now rewrite Hc.
Qed.

(** [split] does not see the whitespace that [strip] removes. *)
Lemma split_strip (s : str) : Py.split (Py.strip s) = Py.split s.
Proof.
  unfold Py.strip, Py.lstrip.
  destruct (rstrip_decomp (Py.dropspace s)) as [w [Hw Hs]].
  rewrite <- (split_dropspace s).
  transitivity (Py.split (Py.rstrip (Py.dropspace s) ++ w)).
  - unfold Py.split. now rewrite split_aux_app_blank.
  - now rewrite <- Hs.
Qed.

Lemma cr_is_linebreak (c : ascii) :
  Py.islinebreak c = false -> Py.is_cr c = false.
Proof.
  unfold Py.islinebreak, Py.is_cr.
  destruct (Nat.eqb_spec (nat_of_ascii c) 13) as [->|]; [|reflexivity].
  simpl. discriminate.
Qed.

Lemma splitlines_aux_line (cur l rest : str) :
  oneline l ->
  Py.splitlines_aux cur (l ++ Py.LF :: rest) =
  (rev cur ++ l) :: Py.splitlines_aux [] rest.
Proof.
  intros Hl. revert cur.
  induction Hl as [|c l Hc _ IH]; intros cur.
  - simpl. now rewrite app_nil_r.
  - cbn [app Py.splitlines_aux].
    rewrite (cr_is_linebreak c Hc), Hc, IH. simpl.
    now rewrite <- app_assoc.
Qed.

(** [splitlines] gives back the lines a text was assembled from. *)
Lemma splitlines_unlines (ls : list str) :
  Forall oneline ls -> Py.splitlines (Py.unlines ls) = ls.
Proof.
  unfold Py.splitlines, Py.unlines.
  induction 1 as [|l ls Hl _ IH]; simpl; [reflexivity|].
  rewrite <- app_assoc. simpl.
  rewrite splitlines_aux_line by assumption. simpl. now rewrite IH.
Qed.

Lemma startswith_app (s p x : str) :
  Py.startswith s p = true -> Py.startswith (s ++ x) p = true.
Proof.
  revert s. induction p as [|a p IH]; intros [|b s]; simpl; try easy.
  destruct (ascii_dec a b); [apply IH | discriminate].
Qed.

Lemma startswith_refl (s : str) : Py.startswith s s = true.
Proof.
  induction s as [|a s IH]; simpl; [reflexivity|].
  destruct (ascii_dec a a); [exact IH | contradiction].
Qed.

(** Two prefixes of one string are prefixes of one another. *)
Lemma startswith_both (s p q : str) :
  Py.startswith s p = true -> Py.startswith s q = true ->
  Py.startswith p q = true \/ Py.startswith q p = true.
Proof.
  revert p q. induction s as [|c s IH]; intros p q; destruct p as [|a p];
    destruct q as [|b q]; simpl; try (now left); try (now right);
    try discriminate.
  destruct (ascii_dec a c) as [->|]; [|discriminate].
  destruct (ascii_dec b c) as [->|]; [|discriminate].
  intros Hp Hq. destruct (ascii_dec c c); [|contradiction].
  now apply IH.
Qed.

(** * Properties of the scanning loop *)

Lemma key_eqb_eq (a b : key) : key_eqb a b = true <-> a = b.
Proof. destruct a, b; simpl; split; congruence. Qed.

Lemma key_eqb_refl (k : key) : key_eqb k k = true.
Proof. now destruct k. Qed.

Lemma has_key_iff (tags : _Tags) (k : key) (line : str) :
  has_key tags k line = true <-> FSSize.find_key tags line = Some k.
Proof.
  unfold has_key. destruct (FSSize.find_key tags line) as [k'|].
  - rewrite key_eqb_eq. split; congruence.
  - split; discriminate.
Qed.

Lemma get_set_same (v : FSSize.values) (k : key) (n : Z) :
  FSSize.get (FSSize.set v k n) k = Some n.
Proof. now destruct k. Qed.

Lemma get_set_other (v : FSSize.values) (k k' : key) (n : Z) :
  k <> k' -> FSSize.get (FSSize.set v k n) k' = FSSize.get v k'.
Proof. destruct k, k'; simpl; congruence. Qed.

Lemma scan_app (tags : _Tags) (a b : list str) (v : FSSize.values) :
  FSSize.scan tags v (a ++ b) =
  match FSSize.scan tags v a with
  | inl v' => FSSize.scan tags v' b
  | inr k => inr k
  end.
Proof.
  revert v. induction a as [|l a IH]; intros v; simpl; [reflexivity|].
  destruct (FSSize.find_key tags l) as [k|]; [|apply IH].
  destruct (FSSize.get v k); [reflexivity|].
  destruct (FSSize.line_value l); apply IH.
Qed.

(** When the loop runs to its end, a key holds what it held before or,
    if it held nothing, what its lines resolve. *)
Lemma scan_inl (tags : _Tags) (lines : list str) :
  forall v v', FSSize.scan tags v lines = inl v' ->
  forall k, FSSize.get v' k =
            match FSSize.get v k with
            | Some n => Some n
            | None => resolve tags k lines
            end.
Proof.
  induction lines as [|l lines IH]; intros v v' H k; simpl in *.
  - injection H as <-. now destruct (FSSize.get v k).
  - unfold has_key. destruct (FSSize.find_key tags l) as [k0|] eqn:Hk.
    2:{ now apply IH. }
    destruct (FSSize.get v k0) eqn:Hg; [discriminate|].
    destruct (FSSize.line_value l) as [n|] eqn:Hv.
    + rewrite (IH _ _ H k).
      destruct (key_eqb k0 k) eqn:He.
      * apply key_eqb_eq in He. subst k0.
        now rewrite get_set_same, Hg.
      * rewrite get_set_other; [reflexivity|].
        intros ->. now rewrite key_eqb_refl in He.
    + rewrite (IH _ _ H k). now destruct (key_eqb k0 k).
Qed.

(** The loop stops with the duplicate-key error exactly at a line whose
    key already holds a value. *)
Lemma scan_inr (tags : _Tags) (lines : list str) :
  forall v k, FSSize.scan tags v lines = inr k ->
  exists pre l post v',
    lines = pre ++ l :: post /\
    FSSize.scan tags v pre = inl v' /\
    FSSize.find_key tags l = Some k /\
    FSSize.get v' k <> None.
Proof.
  induction lines as [|l lines IH]; intros v k H; simpl in H; [discriminate|].
  destruct (FSSize.find_key tags l) as [k0|] eqn:Hk.
  - destruct (FSSize.get v k0) eqn:Hg.
    + injection H as <-. exists [], l, lines, v. simpl.
      repeat split; try assumption. congruence.
    + assert (Hstep : forall v0, FSSize.scan tags v0 lines = inr k ->
                (match FSSize.line_value l with
                 | Some n => FSSize.set v k0 n | None => v end) = v0 ->
                exists pre l' post v',
                  l :: lines = pre ++ l' :: post /\
                  FSSize.scan tags v pre = inl v' /\
                  FSSize.find_key tags l' = Some k /\
                  FSSize.get v' k <> None).
      { intros v0 H0 Hv0.
        destruct (IH _ _ H0) as (pre & l' & post & v' & -> & Hs & Hl & Hn).
        exists (l :: pre), l', post, v'. simpl. rewrite Hk, Hg.
        repeat split; try assumption.
        rewrite <- Hv0 in Hs. now destruct (FSSize.line_value l). }
      destruct (FSSize.line_value l) as [n|]; now apply (Hstep _ H).
  - destruct (IH _ _ H) as (pre & l' & post & v' & -> & Hs & Hl & Hn).
    exists (l :: pre), l', post, v'. simpl. now rewrite Hk.
Qed.

Lemma resolve_Some (tags : _Tags) (k : key) (lines : list str) (n : Z) :
  resolve tags k lines = Some n ->
  exists pre l post,
    lines = pre ++ l :: post /\
    FSSize.find_key tags l = Some k /\
    FSSize.line_value l = Some n.
Proof.
  induction lines as [|l lines IH]; simpl; [discriminate|].
  destruct (has_key tags k l) eqn:Hk.
  - destruct (FSSize.line_value l) as [m|] eqn:Hv.
    + intros H. injection H as ->. exists [], l, lines.
      now rewrite <- has_key_iff.
    + intros H. destruct (IH H) as (pre & l' & post & -> & ? & ?).
      now exists (l :: pre), l', post.
  - intros H. destruct (IH H) as (pre & l' & post & -> & ? & ?).
    now exists (l :: pre), l', post.
Qed.

Lemma resolve_None (tags : _Tags) (k : key) (lines : list str) :
  resolve tags k lines = None <->
  (forall l, In l lines -> FSSize.find_key tags l = Some k ->
             FSSize.line_value l = None).
Proof.
  induction lines as [|l lines IH]; simpl.
  - split; [intros _ ? [] | reflexivity].
  - destruct (has_key tags k l) eqn:Hk.
    + apply has_key_iff in Hk.
      destruct (FSSize.line_value l) as [m|] eqn:Hv.
      * split; [discriminate|]. intros H.
        specialize (H l (or_introl eq_refl) Hk). congruence.
      * rewrite IH. split.
        -- intros H l' [<-|Hin] Hl'; [assumption | now apply H].
        -- intros H l' Hin. apply H. now right.
    + rewrite IH. split.
      * intros H l' [<-|Hin] Hl'; [| now apply H].
        apply has_key_iff in Hl'. congruence.
      * intros H l' Hin. apply H. now right.
Qed.

Lemma resolve_In (tags : _Tags) (k : key) (lines : list str) (l : str) (n : Z) :
  In l lines -> FSSize.find_key tags l = Some k ->
  FSSize.line_value l = Some n -> resolve tags k lines <> None.
Proof.
  intros Hin Hk Hv H. rewrite resolve_None in H.
  specialize (H l Hin Hk). congruence.
Qed.

Lemma resolve_filter_nil (tags : _Tags) (k : key) (lines : list str) :
  filter (has_key tags k) lines = [] -> resolve tags k lines = None.
Proof.
  induction lines as [|l lines IH]; simpl; [reflexivity|].
  destruct (has_key tags k l); [discriminate | exact IH].
Qed.

Lemma resolve_filter_one (tags : _Tags) (k : key) (lines : list str) (l : str) :
  filter (has_key tags k) lines = [l] ->
  resolve tags k lines = FSSize.line_value l.
Proof.
  induction lines as [|l0 lines IH]; simpl; [discriminate|].
  destruct (has_key tags k l0); [|exact IH].
  intros H. injection H as -> H.
  rewrite (resolve_filter_nil _ _ _ H).
  now destruct (FSSize.line_value l).
Qed.

(** A key with at most one line never meets the duplicate-key error. *)
Lemma scan_inr_two_lines (tags : _Tags) (lines : list str) (k : key) :
  FSSize.scan tags FSSize.initial lines = inr k ->
  exists pre l1 mid l2 post n,
    lines = pre ++ l1 :: mid ++ l2 :: post /\
    FSSize.find_key tags l1 = Some k /\
    FSSize.line_value l1 = Some n /\
    FSSize.find_key tags l2 = Some k.
Proof.
  intros H.
  destruct (scan_inr _ _ _ _ H) as (pre & l2 & post & v' & -> & Hs & Hl & Hn).
  pose proof (scan_inl _ _ _ _ Hs k) as Hg.
  assert (Hinit : FSSize.get FSSize.initial k = None) by now destruct k.
  rewrite Hinit in Hg.
  destruct (resolve tags k pre) as [n|] eqn:Hr; [|congruence].
  destruct (resolve_Some _ _ _ _ Hr) as (p1 & l1 & p2 & -> & Hk1 & Hv1).
  exists p1, l1, p2, l2, post, n. rewrite <- app_assoc. now simpl.
Qed.

Lemma filter_two (f : str -> bool) (pre mid post : list str) (l1 l2 : str) :
  f l1 = true -> f l2 = true ->
  (2 <= List.length (filter f (pre ++ l1 :: mid ++ l2 :: post)))%nat.
Proof.
  intros H1 H2. rewrite filter_app. simpl. rewrite H1, filter_app. simpl.
  rewrite H2. rewrite length_app. simpl. rewrite length_app. simpl. lia.
Qed.

Lemma scan_no_duplicate (tags : _Tags) (lines : list str) :
  (forall k, (List.length (filter (has_key tags k) lines) <= 1)%nat) ->
  exists v, FSSize.scan tags FSSize.initial lines = inl v.
Proof.
  intros H.
  destruct (FSSize.scan tags FSSize.initial lines) as [v|k] eqn:Hs;
    [now exists v|].
  destruct (scan_inr_two_lines _ _ _ Hs)
    as (pre & l1 & mid & l2 & post & n & -> & H1 & _ & H2).
  apply has_key_iff in H1, H2.
  pose proof (filter_two (has_key tags k) pre mid post l1 l2 H1 H2).
  specialize (H k). lia.
Qed.

(** The loop sees a line only through its key and its value. *)
Lemma scan_same_view (tags : _Tags) (a b : list str) :
  Forall2 (fun l l' => FSSize.find_key tags l = FSSize.find_key tags l' /\
                       FSSize.line_value l = FSSize.line_value l') a b ->
  forall v, FSSize.scan tags v a = FSSize.scan tags v b.
Proof.
  induction 1 as [|l l' a b [Hk Hv] _ IH]; intros v; simpl; [reflexivity|].
  rewrite <- Hk, <- Hv.
  destruct (FSSize.find_key tags l) as [k|]; [|apply IH].
  destruct (FSSize.get v k); [reflexivity|].
  destruct (FSSize.line_value l); apply IH.
Qed.

Lemma Forall2_same {A} (R : A -> A -> Prop) (l : list A) :
  (forall x, R x x) -> Forall2 R l l.
Proof. intros H. induction l; constructor; auto. Qed.

(** ** Keys and tags *)

Lemma find_key_count (tags : _Tags) (line : str) :
  FSSize.find_key tags line = Some count <->
  Py.startswith line (of_count tags) = true.
Proof.
  unfold FSSize.find_key. simpl.
  destruct (Py.startswith line (of_count tags)).
  - split; reflexivity.
  - destruct (Py.startswith line (of_size tags)); split; discriminate.
Qed.

Lemma find_key_None (tags : _Tags) (line : str) :
  FSSize.find_key tags line = None <->
  Py.startswith line (of_count tags) = false /\
  Py.startswith line (of_size tags) = false.
Proof.
  unfold FSSize.find_key. simpl.
  destruct (Py.startswith line (of_count tags)),
    (Py.startswith line (of_size tags)); split; try easy; intros []; easy.
Qed.

(** A line filed under a key starts with the tag of that key. *)
Lemma find_key_startswith (tags : _Tags) (line : str) (k : key) :
  FSSize.find_key tags line = Some k ->
  Py.startswith line (getattr tags k) = true.
Proof.
  unfold FSSize.find_key. simpl.
  destruct (Py.startswith line (of_count tags)) eqn:Hc.
  - intros H. injection H as <-. exact Hc.
  - destruct (Py.startswith line (of_size tags)) eqn:Hs; [|discriminate].
    intros H. injection H as <-. exact Hs.
Qed.

(** With exclusive tags the converse holds as well. *)
Lemma startswith_find_key (tags : _Tags) (line : str) (k : key) :
  exclusive tags ->
  Py.startswith line (getattr tags k) = true ->
  FSSize.find_key tags line = Some k.
Proof.
  intros [E1 E2] H. destruct k; simpl in H.
  - now apply find_key_count.
  - unfold FSSize.find_key. simpl.
    destruct (Py.startswith line (of_count tags)) eqn:Hc.
    + destruct (startswith_both _ _ _ Hc H); congruence.
    + now rewrite H.
Qed.

Lemma has_key_startswith (tags : _Tags) (k : key) (line : str) :
  exclusive tags ->
  has_key tags k line = Py.startswith line (getattr tags k).
Proof.
  intros E. destruct (Py.startswith line (getattr tags k)) eqn:H.
  - apply has_key_iff. now apply startswith_find_key.
  - destruct (has_key tags k line) eqn:Hk; [|reflexivity].
    apply has_key_iff, find_key_startswith in Hk. congruence.
Qed.

Lemma exclusive_variant (c : variant) : exclusive (variant_tags c).
Proof. destruct c; split; reflexivity. Qed.

(** ** [doTask] through [extract] *)

Lemma doTask_extract (self : FSSize.t) (w : world) (info : str) :
  _current_info (FSSize.fs self) = Some info ->
  FSSize.doTask self w = (extract (FSSize.tags self) (info_lines info), w).
Proof.
  intros H. unfold FSSize.doTask, impossible. simpl.
  unfold FSSize.unable, FSSize.unavailable, FSSize.unready. rewrite H. simpl.
  unfold extract, info_lines.
  destruct (FSSize.scan _ _ _) as [v|k]; [|reflexivity].
  destruct v as [[c|] [s|]]; reflexivity.
Qed.

Lemma doTask_unlines (self : FSSize.t) (w : world) (ls : list str) :
  Forall oneline ls ->
  _current_info (FSSize.fs self) = Some (Py.unlines ls) ->
  FSSize.doTask self w = (extract (FSSize.tags self) (map Py.strip ls), w).
Proof.
  intros Hl H. rewrite (doTask_extract _ _ _ H).
  unfold info_lines. now rewrite splitlines_unlines.
Qed.

Lemma extract_one_each (tags : _Tags) (lines : list str) (lc ls : str) (n m : Z) :
  exclusive tags ->
  filter (fun l => Py.startswith l (of_count tags)) lines = [lc] ->
  filter (fun l => Py.startswith l (of_size tags)) lines = [ls] ->
  FSSize.line_value lc = Some n ->
  FSSize.line_value ls = Some m ->
  extract tags lines = Return (Size.of_int (n * m)).
Proof.
  intros E Hc Hs Hn Hm.
  assert (Fc : filter (has_key tags count) lines = [lc]).
  { rewrite <- Hc. apply filter_ext. intros l. now apply has_key_startswith. }
  assert (Fs : filter (has_key tags size) lines = [ls]).
  { rewrite <- Hs. apply filter_ext. intros l. now apply has_key_startswith. }
  destruct (scan_no_duplicate tags lines) as [v Hv].
  { intros [|]; [rewrite Fc | rewrite Fs]; simpl; lia. }
  unfold extract. rewrite Hv.
  rewrite (scan_inl _ _ _ _ Hv count), (scan_inl _ _ _ _ Hv size). simpl.
  rewrite (resolve_filter_one _ _ _ _ Fc), (resolve_filter_one _ _ _ _ Fs).
  now rewrite Hn, Hm.
Qed.

(** ** What leaves the result alone *)

Lemma strip_app_prefix (l x : str) :
  exists r, Py.strip (l ++ x) = Py.strip l ++ r.
Proof.
  unfold Py.strip, Py.lstrip. rewrite dropspace_app.
  destruct (Py.dropspace l) as [|c d] eqn:Hd.
  - now exists (Py.rstrip (Py.dropspace x)).
  - unfold Py.rstrip at 1. rewrite rev_app_distr, dropspace_app.
    destruct (Py.dropspace (rev x)) as [|e y] eqn:Hx.
    + exists []. now rewrite app_nil_r.
    + destruct (rstrip_decomp (c :: d)) as [ws [_ Hws]].
      exists (ws ++ rev (e :: y)).
      rewrite rev_app_distr, rev_involutive, app_assoc. now rewrite <- Hws.
Qed.

Lemma first_int_skip (xs ys : list str) :
  Forall (fun f => Py.int f = None) xs ->
  FSSize.first_int (xs ++ ys) = FSSize.first_int ys.
Proof.
  induction 1 as [|x xs Hx _ IH]; simpl; [reflexivity|]. now rewrite Hx.
Qed.

Lemma line_value_strip (l : str) :
  FSSize.line_value (Py.strip l) = FSSize.line_value l.
Proof. unfold FSSize.line_value. now rewrite split_strip. Qed.

Lemma line_value_extra (l : str) (sp : ascii) (extra : str) :
  Py.isspace sp = true ->
  Forall (fun f => Py.int f = None) (Py.split extra) ->
  FSSize.line_value (l ++ sp :: extra) = FSSize.line_value l.
Proof.
  intros Hsp Hx. unfold FSSize.line_value, Py.split.
  rewrite split_aux_app_space by assumption.
  rewrite rev_app_distr. apply first_int_skip. now apply Forall_rev.
Qed.

Lemma extract_skip (tags : _Tags) (pre post : list str) (l : str) :
  FSSize.find_key tags l = None ->
  extract tags (pre ++ l :: post) = extract tags (pre ++ post).
Proof.
  intros H. unfold extract. rewrite !scan_app.
  destruct (FSSize.scan tags FSSize.initial pre); [|reflexivity].
  simpl. now rewrite H.
Qed.

Lemma extract_same_view (tags : _Tags) (a b : list str) :
  Forall2 (fun l l' => FSSize.find_key tags l = FSSize.find_key tags l' /\
                       FSSize.line_value l = FSSize.line_value l') a b ->
  extract tags a = extract tags b.
Proof. intros H. unfold extract. now rewrite (scan_same_view _ _ _ H). Qed.

Lemma map_strip_padded (ls ls' : list str) :
  Forall2 padded ls ls' -> map Py.strip ls' = map Py.strip ls.
Proof.
  induction 1 as [|l l' ls ls' (w1 & w2 & H1 & H2 & ->) _ IH]; simpl;
    [reflexivity|].
  now rewrite strip_pad, IH.
Qed.

Lemma extract_extra (tags : _Tags) (pre post : list str) (l : str)
      (sp : ascii) (extra : str) (k : key) :
  exclusive tags ->
  Py.startswith (Py.strip l) (getattr tags k) = true ->
  Py.isspace sp = true ->
  Forall (fun f => Py.int f = None) (Py.split extra) ->
  extract tags (map Py.strip (pre ++ (l ++ sp :: extra) :: post)) =
  extract tags (map Py.strip (pre ++ l :: post)).
Proof.
  intros E Hk Hsp Hx. apply extract_same_view.
  rewrite !map_app. simpl. apply Forall2_app.
  { apply Forall2_same. now split. }
  constructor.
  2:{ apply Forall2_same. now split. }
  split.
  - rewrite (startswith_find_key _ _ k E Hk).
    apply startswith_find_key; [assumption|].
    destruct (strip_app_prefix l (sp :: extra)) as [r ->].
    now apply startswith_app.
  - rewrite !line_value_strip. now apply line_value_extra.
Qed.

Lemma doTask_capture (c : variant) (an_fs : FS) (w : world) (info : str) :
  FSSize.doTask (new c (capture an_fs info)) w =
  (extract (variant_tags c) (info_lines info), w).
Proof. now apply doTask_extract. Qed.

Lemma doTask_capture_unlines (c : variant) (an_fs : FS) (w : world)
      (ls : list str) :
  Forall oneline ls ->
  FSSize.doTask (new c (capture an_fs (Py.unlines ls))) w =
  (extract (variant_tags c) (map Py.strip ls), w).
Proof. intros H. now apply doTask_unlines. Qed.

(** * The extraction tasks *)

(** C1. For each of the concrete filesystem variants: a text with exactly
    one line starting with the count tag and exactly one line starting
    with the size tag, each with an integer field, yields [count * size]
    bytes; and the outcome of [doTask] does not change when a line that
    starts with neither tag is added, when whitespace is added at the ends
    of the lines, or when further fields that are no integers are
    appended to a line of a tag. *)
Theorem doTask_one_line_per_tag (c : variant) (an_fs : FS) (w : world) :
  (forall info lc ls n m,
      filter (fun l => Py.startswith l (of_count (variant_tags c)))
             (info_lines info) = [lc] ->
      filter (fun l => Py.startswith l (of_size (variant_tags c)))
             (info_lines info) = [ls] ->
      FSSize.line_value lc = Some n ->
      FSSize.line_value ls = Some m ->
      FSSize.doTask (new c (capture an_fs info)) w =
      (Return (Size.rmul n (Size.of_int m)), w)) /\
  (forall pre l post,
      Forall oneline (pre ++ l :: post) ->
      Py.startswith (Py.strip l) (of_count (variant_tags c)) = false ->
      Py.startswith (Py.strip l) (of_size (variant_tags c)) = false ->
      FSSize.doTask (new c (capture an_fs (Py.unlines (pre ++ l :: post)))) w =
      FSSize.doTask (new c (capture an_fs (Py.unlines (pre ++ post)))) w) /\
  (forall ls ls',
      Forall oneline ls -> Forall oneline ls' -> Forall2 padded ls ls' ->
      FSSize.doTask (new c (capture an_fs (Py.unlines ls'))) w =
      FSSize.doTask (new c (capture an_fs (Py.unlines ls))) w) /\
  (forall pre l sp extra post k,
      Forall oneline (pre ++ (l ++ sp :: extra) :: post) ->
      Py.startswith (Py.strip l) (getattr (variant_tags c) k) = true ->
      Py.isspace sp = true ->
      Forall (fun f => Py.int f = None) (Py.split extra) ->
      FSSize.doTask
        (new c (capture an_fs (Py.unlines (pre ++ (l ++ sp :: extra) :: post)))) w =
      FSSize.doTask (new c (capture an_fs (Py.unlines (pre ++ l :: post)))) w).
Proof.
  pose proof (exclusive_variant c) as E.
  repeat split.
  - intros info lc ls n m Hc Hs Hn Hm.
    rewrite doTask_capture.
    now rewrite (extract_one_each _ _ lc ls n m E Hc Hs Hn Hm).
  - intros pre l post Hl Hc Hs.
    assert (Hl' : Forall oneline (pre ++ post)).
    { apply Forall_app in Hl as [? Hl]. apply Forall_app. split; [assumption|].
      now inversion Hl. }
    rewrite !doTask_capture_unlines by assumption.
    rewrite !map_app. simpl. rewrite extract_skip; [reflexivity|].
    now apply find_key_None.
  - intros ls ls' Hl Hl' Hp.
    rewrite !doTask_capture_unlines by assumption.
    now rewrite (map_strip_padded _ _ Hp).
  - intros pre l sp extra post k Hl Hk Hsp Hx.
    assert (Hl' : Forall oneline (pre ++ l :: post)).
    { apply Forall_app in Hl as [? Hl]. apply Forall_app. split; [assumption|].
      inversion Hl as [|? ? H1 H2]. constructor; [|assumption].
      now apply Forall_app in H1 as [? _]. }
    rewrite !doTask_capture_unlines by assumption.
    now rewrite (extract_extra _ _ _ _ _ _ k E Hk Hsp Hx).
Qed.

Lemma onelineb_sound (ls : list str) : onelineb ls = true -> Forall oneline ls.
Proof.
  unfold onelineb, oneline. rewrite forallb_forall, Forall_forall.
  intros H l Hl. specialize (H l Hl).
  rewrite forallb_forall in H. rewrite Forall_forall.
  intros x Hx. specialize (H x Hx). now destruct (Py.islinebreak x).
Qed.

Lemma doTask_one_line_per_tag_witness :
  FSSize.doTask
    (new XFSSize
       (capture blank_fs
          (Py.unlines [lit "blocksize = 4096"; lit "dblocks = 131072"])))
    quiet = (Return (Size.of_int 536870912), quiet) /\
  FSSize.doTask
    (new XFSSize
       (capture blank_fs
          (Py.unlines ([lit "blocksize = 4096"] ++
                       lit "agcount = 4" :: [lit "dblocks = 131072"]))))
    quiet =
  FSSize.doTask
    (new XFSSize
       (capture blank_fs
          (Py.unlines ([lit "blocksize = 4096"] ++ [lit "dblocks = 131072"]))))
    quiet /\
  FSSize.doTask
    (new XFSSize
       (capture blank_fs
          (Py.unlines [lit "  blocksize = 4096 "; lit " dblocks = 131072"])))
    quiet =
  FSSize.doTask
    (new XFSSize
       (capture blank_fs
          (Py.unlines [lit "blocksize = 4096"; lit "dblocks = 131072"])))
    quiet /\
  FSSize.doTask
    (new XFSSize
       (capture blank_fs
          (Py.unlines ([lit "blocksize = 4096"] ++
                       (lit "dblocks = 131072" ++ " "%char :: lit "blocks (4k)")
                       :: []))))
    quiet =
  FSSize.doTask
    (new XFSSize
       (capture blank_fs
          (Py.unlines ([lit "blocksize = 4096"] ++ lit "dblocks = 131072" :: []))))
    quiet.
Proof.
  split; [|split; [|split]].
  - apply (proj1 (doTask_one_line_per_tag XFSSize blank_fs quiet)
             (Py.unlines [lit "blocksize = 4096"; lit "dblocks = 131072"])
             (lit "dblocks = 131072") (lit "blocksize = 4096") 131072 4096);
      reflexivity.
  - apply (proj1 (proj2 (doTask_one_line_per_tag XFSSize blank_fs quiet))).
    + apply onelineb_sound. reflexivity.
    + reflexivity.
    + reflexivity.
  - apply (proj1 (proj2 (proj2 (doTask_one_line_per_tag XFSSize blank_fs quiet)))).
    + apply onelineb_sound. reflexivity.
    + apply onelineb_sound. reflexivity.
    + constructor.
      * exists (lit "  "), (lit " ").
        split; [repeat constructor | split; [repeat constructor | reflexivity]].
      * constructor; [|constructor].
        exists (lit " "), [].
        split; [repeat constructor | split; [constructor | reflexivity]].
  - apply (proj2 (proj2 (proj2 (doTask_one_line_per_tag XFSSize blank_fs quiet)))
             [lit "blocksize = 4096"] (lit "dblocks = 131072") " "%char
             (lit "blocks (4k)") [] count).
    + apply onelineb_sound. reflexivity.
    + reflexivity.
    + reflexivity.
    + repeat constructor.
Defined.

(** ** Duplicate and missing keys *)

Lemma key_cases (k k' : key) : k' = k \/ k' = other k.
Proof. destruct k, k'; simpl; auto. Qed.

Lemma initial_None (k : key) : FSSize.get FSSize.initial k = None.
Proof. now destruct k. Qed.

(** A line of a key that comes after a line of the same key with an
    integer field stops the loop. *)
Lemma scan_repeated (tags : _Tags) (pre mid post : list str) (l1 l2 : str)
      (k : key) (n : Z) :
  FSSize.find_key tags l1 = Some k ->
  FSSize.line_value l1 = Some n ->
  FSSize.find_key tags l2 = Some k ->
  exists k',
    FSSize.scan tags FSSize.initial (pre ++ l1 :: mid ++ l2 :: post) = inr k'.
Proof.
  intros H1 Hn H2.
  replace (pre ++ l1 :: mid ++ l2 :: post)
    with ((pre ++ l1 :: mid) ++ l2 :: post)
    by (rewrite <- app_assoc; reflexivity).
  rewrite scan_app.
  destruct (FSSize.scan tags FSSize.initial (pre ++ l1 :: mid)) as [v|k'] eqn:Hs;
    [|now exists k'].
  exists k. simpl. rewrite H2.
  pose proof (scan_inl _ _ _ _ Hs k) as Hg. rewrite initial_None in Hg.
  destruct (FSSize.get v k); [reflexivity|].
  exfalso. symmetry in Hg. revert Hg.
  apply (resolve_In tags k _ l1 n); try assumption.
  apply in_or_app. right. now left.
Qed.

Lemma extract_scan_inr (tags : _Tags) (lines : list str) (k : key) :
  FSSize.scan tags FSSize.initial lines = inr k ->
  extract tags lines = Raise (FSError (TwoMatches k)).
Proof. intros H. unfold extract. now rewrite H. Qed.

Lemma extract_TwoMatches (tags : _Tags) (lines : list str) (k : key) :
  extract tags lines = Raise (FSError (TwoMatches k)) ->
  FSSize.scan tags FSSize.initial lines = inr k.
Proof.
  unfold extract.
  destruct (FSSize.scan tags FSSize.initial lines) as [v|k'].
  - destruct (FSSize.get v count), (FSSize.get v size); discriminate.
  - congruence.
Qed.

(** C2, as the code has it.  For each of the concrete variants: when a
    line that starts with a tag comes after a line that starts with the
    same tag and has an integer field, [doTask] fails with the
    duplicate-key error and gives no size; the error names that key
    whenever at most one line starts with the other tag. *)
Theorem doTask_duplicate_key (c : variant) (an_fs : FS) (w : world)
        (info : str) (pre mid post : list str) (l1 l2 : str) (k : key) (n : Z) :
  info_lines info = pre ++ l1 :: mid ++ l2 :: post ->
  Py.startswith l1 (getattr (variant_tags c) k) = true ->
  FSSize.line_value l1 = Some n ->
  Py.startswith l2 (getattr (variant_tags c) k) = true ->
  (exists k',
      FSSize.doTask (new c (capture an_fs info)) w =
      (Raise (FSError (TwoMatches k')), w)) /\
  ((List.length
      (filter (fun l => Py.startswith l (getattr (variant_tags c) (other k)))
              (info_lines info)) <= 1)%nat ->
   FSSize.doTask (new c (capture an_fs info)) w =
   (Raise (FSError (TwoMatches k)), w)).
Proof.
  intros HL H1 Hn H2. pose proof (exclusive_variant c) as E.
  apply (startswith_find_key _ _ _ E) in H1, H2.
  destruct (scan_repeated (variant_tags c) pre mid post l1 l2 k n H1 Hn H2)
    as [k' Hk']. rewrite <- HL in Hk'.
  rewrite doTask_capture, (extract_scan_inr _ _ _ Hk').
  split; [now exists k'|].
  intros Hother. destruct (key_cases k k') as [->| ->]; [reflexivity|].
  exfalso.
  destruct (scan_inr_two_lines _ _ _ Hk')
    as (p & a & m & b & q & x & Hq & Ha & _ & Hb).
  rewrite Hq in Hother.
  apply find_key_startswith in Ha, Hb.
  pose proof (filter_two
    (fun l => Py.startswith l (getattr (variant_tags c) (other k)))
    p m q a b Ha Hb).
  lia.
Qed.

Lemma doTask_duplicate_key_witness :
  FSSize.doTask
    (new Ext2FSSize
       (capture blank_fs
          (Py.unlines [lit "Block count: 1"; lit "Block size: 4096";
                       lit "Block count: 2"])))
    quiet = (Raise (FSError (TwoMatches count)), quiet).
Proof.
  apply (proj2 (doTask_duplicate_key Ext2FSSize blank_fs quiet
                  (Py.unlines [lit "Block count: 1"; lit "Block size: 4096";
                               lit "Block count: 2"])
                  [] [lit "Block size: 4096"] []
                  (lit "Block count: 1") (lit "Block count: 2") count 1
                  eq_refl eq_refl eq_refl eq_refl)).
  simpl. lia.
Defined.

(** C2, as it is worded, fails: two lines start with the count tag, the
    first has no integer field, and [doTask] returns a size. *)
Lemma duplicate_tag_line_counterexample :
  (2 <= List.length
          (filter (fun l => Py.startswith l (getattr (variant_tags Ext2FSSize) count))
                  (info_lines
                     (Py.unlines [lit "Block count: none"; lit "Block count: 5";
                                  lit "Block size: 4096"]))))%nat /\
  FSSize.doTask
    (new Ext2FSSize
       (capture blank_fs
          (Py.unlines [lit "Block count: none"; lit "Block count: 5";
                       lit "Block size: 4096"])))
    quiet = (Return (Size.of_int 20480), quiet).
Proof. split; [simpl; lia | reflexivity]. Qed.

Lemma extract_scan_inl (tags : _Tags) (lines : list str) (v : FSSize.values) :
  FSSize.scan tags FSSize.initial lines = inl v ->
  extract tags lines =
  match resolve tags count lines, resolve tags size lines with
  | None, _ => Raise (FSError (ParseInfoFailed count))
  | Some _, None => Raise (FSError (ParseInfoFailed size))
  | Some c, Some s => Return (Size.of_int (c * s))
  end.
Proof.
  intros H. unfold extract. rewrite H.
  rewrite (scan_inl _ _ _ _ H count), (scan_inl _ _ _ _ H size).
  reflexivity.
Qed.

Lemma resolve_no_line (tags : _Tags) (k : key) (lines : list str) :
  (forall l, In l lines -> Py.startswith l (getattr tags k) = false) ->
  resolve tags k lines = None.
Proof.
  intros H. apply resolve_None. intros l Hin Hk.
  apply find_key_startswith in Hk. rewrite (H l Hin) in Hk. discriminate.
Qed.

Lemma filter_has_key_le (tags : _Tags) (k : key) (lines : list str) :
  (List.length (filter (has_key tags k) lines) <=
   List.length (filter (fun l => Py.startswith l (getattr tags k)) lines))%nat.
Proof.
  induction lines as [|l lines IH]; simpl; [lia|].
  destruct (has_key tags k l) eqn:Hk.
  - apply has_key_iff, find_key_startswith in Hk. rewrite Hk. simpl. lia.
  - destruct (Py.startswith l (getattr tags k)); simpl; lia.
Qed.

Lemma filter_none {A} (f : A -> bool) (l : list A) :
  (forall x, In x l -> f x = false) -> filter f l = [].
Proof.
  induction l as [|a l IH]; simpl; intros H; [reflexivity|].
  rewrite (H a (or_introl eq_refl)). apply IH. intros x Hx. apply H. now right.
Qed.

(** C3, as the code has it.  When no line starts with the tag of [k],
    [doTask] fails: with the duplicate-key error of the other key if the
    loop meets one, and otherwise, after all lines, with the missing-key
    error that names the first key in the order (count, size) that no
    line resolved.  The second case is the one that occurs when at most
    one line starts with the other tag. *)
Theorem doTask_missing_key (self : FSSize.t) (w : world) (info : str) (k : key) :
  _current_info (FSSize.fs self) = Some info ->
  (forall l, In l (info_lines info) ->
             Py.startswith l (getattr (FSSize.tags self) k) = false) ->
  (FSSize.doTask self w = (Raise (FSError (TwoMatches (other k))), w) \/
   exists missing,
     first_unresolved (FSSize.tags self) (info_lines info) = Some missing /\
     FSSize.doTask self w = (Raise (FSError (ParseInfoFailed missing)), w)) /\
  ((List.length
      (filter (fun l => Py.startswith l (getattr (FSSize.tags self) (other k)))
              (info_lines info)) <= 1)%nat ->
   exists missing,
     first_unresolved (FSSize.tags self) (info_lines info) = Some missing /\
     FSSize.doTask self w = (Raise (FSError (ParseInfoFailed missing)), w)).
Proof.
  intros Hi Hno.
  rewrite (doTask_extract _ _ _ Hi).
  pose proof (resolve_no_line _ _ _ Hno) as Hr.
  assert (Hok : forall v,
             FSSize.scan (FSSize.tags self) FSSize.initial (info_lines info) = inl v ->
             exists missing,
               first_unresolved (FSSize.tags self) (info_lines info) = Some missing /\
               (extract (FSSize.tags self) (info_lines info), w) =
               (Raise (FSError (ParseInfoFailed missing)), w)).
  { intros v Hv. rewrite (extract_scan_inl _ _ _ Hv).
    unfold first_unresolved. simpl.
    destruct (resolve (FSSize.tags self) count (info_lines info)) eqn:Hc; simpl.
    - destruct k; [congruence|]. rewrite Hr. simpl. now exists size.
    - now exists count. }
  split.
  - destruct (FSSize.scan (FSSize.tags self) FSSize.initial (info_lines info))
      as [v|k'] eqn:Hs.
    + right. now apply (Hok v).
    + left. rewrite (extract_scan_inr _ _ _ Hs).
      destruct (key_cases k k') as [->| ->]; [|reflexivity].
      exfalso.
      destruct (scan_inr_two_lines _ _ _ Hs)
        as (p & a & m & b & q & x & Hq & Ha & _ & _).
      apply find_key_startswith in Ha.
      rewrite (Hno a) in Ha; [discriminate|].
      rewrite Hq. apply in_or_app. right. now left.
  - intros Hone.
    destruct (scan_no_duplicate (FSSize.tags self) (info_lines info)) as [v Hv].
    { intros k'. destruct (key_cases k k') as [->| ->].
      - pose proof (filter_has_key_le (FSSize.tags self) k (info_lines info)) as H.
        rewrite (filter_none _ _ Hno) in H. simpl in H. lia.
      - pose proof (filter_has_key_le (FSSize.tags self) (other k) (info_lines info)).
        lia. }
    now apply (Hok v).
Qed.

Lemma doTask_missing_key_witness :
  FSSize.doTask
    (new ReiserFSSize (capture blank_fs (Py.unlines [lit "Blocksize: 4096"])))
    quiet = (Raise (FSError (ParseInfoFailed count)), quiet).
Proof.
  assert (Hno : forall l,
             In l (info_lines (Py.unlines [lit "Blocksize: 4096"])) ->
             Py.startswith l (getattr (variant_tags ReiserFSSize) count) = false).
  { intros l [<-|[]]. reflexivity. }
  destruct (proj2 (doTask_missing_key
                     (new ReiserFSSize
                        (capture blank_fs (Py.unlines [lit "Blocksize: 4096"])))
                     quiet (Py.unlines [lit "Blocksize: 4096"]) count eq_refl Hno))
    as [missing [Hfind Hdo]].
  - simpl. lia.
  - injection Hfind as <-. exact Hdo.
Defined.

(** C3, as it is worded, fails: no line starts with the size tag, and the
    error is the duplicate-key error of [count], not a missing-key one. *)
Lemma missing_tag_line_counterexample :
  (forall l,
      In l (info_lines (Py.unlines [lit "Block count: 1"; lit "Block count: 2"])) ->
      Py.startswith l (getattr (variant_tags Ext2FSSize) size) = false) /\
  FSSize.doTask
    (new Ext2FSSize
       (capture blank_fs (Py.unlines [lit "Block count: 1"; lit "Block count: 2"])))
    quiet = (Raise (FSError (TwoMatches count)), quiet) /\
  (forall missing,
      FSSize.doTask
        (new Ext2FSSize
           (capture blank_fs
              (Py.unlines [lit "Block count: 1"; lit "Block count: 2"])))
        quiet <> (Raise (FSError (ParseInfoFailed missing)), quiet)).
Proof.
  split; [|split].
  - intros l [<-|[<-|[]]]; reflexivity.
  - reflexivity.
  - intros missing. discriminate.
Qed.

(** ** The value of a matching line *)


Lemma first_int_None (fields : list str) :
  FSSize.first_int fields = None <-> Forall (fun f => Py.int f = None) fields.
Proof.
  induction fields as [|f fields IH]; simpl.
  - split; [constructor | reflexivity].
  - destruct (Py.int f) eqn:Hf.
    + split; [discriminate|]. intros H. inversion H. congruence.
    + rewrite IH. split; [now constructor | now inversion 1].
Qed.

Lemma line_value_None (line : str) :
  FSSize.line_value line = None <->
  Forall (fun f => Py.int f = None) (Py.split line).
Proof.
  unfold FSSize.line_value. rewrite first_int_None. split; intros H.
  - rewrite <- (rev_involutive (Py.split line)). now apply Forall_rev.
  - now apply Forall_rev.
Qed.



(** [doTask] of [FSSize] returns a size or raises an [FSError]; the
    other exceptions of the model are out of its reach. *)
Lemma doTask_outcome (self : FSSize.t) (w : world) :
  (exists s, FSSize.doTask self w = (Return s, w)) \/
  (exists m, FSSize.doTask self w = (Raise (FSError m), w)).
Proof.
  destruct (_current_info (FSSize.fs self)) as [info|] eqn:Hi.
  - rewrite (doTask_extract _ _ _ Hi). unfold extract.
    destruct (FSSize.scan _ _ _) as [v|k]; [|right; now eexists].
    destruct (FSSize.get v count); [|right; now eexists].
    destruct (FSSize.get v size); [left | right]; now eexists.
  - right. exists NoInfo. unfold FSSize.doTask, impossible. simpl.
    unfold FSSize.unable. now rewrite Hi.
Qed.

(** ** Matching lines without an integer *)

Lemma scan_inr_resolved (tags : _Tags) (lines : list str) (k k' : key) :
  (forall l, In l lines -> FSSize.find_key tags l = Some k ->
             FSSize.line_value l = None) ->
  FSSize.scan tags FSSize.initial lines = inr k' -> k' = other k.
Proof.
  intros Hnone Hs.
  destruct (key_cases k k') as [->|]; [|assumption].
  exfalso.
  destruct (scan_inr_two_lines _ _ _ Hs)
    as (p & a & m & b & q & x & -> & Ha & Hx & _).
  rewrite (Hnone a) in Hx; [discriminate | | assumption].
  apply in_or_app. right. now left.
Qed.

(** C10, as the code has it.  For each of the concrete variants: (1) a
    line that starts with the tag of a key not yet resolved, and has no
    integer field, leaves the values as they are, so that the next line
    of that tag is met as the first; (2) when no line of a tag has an
    integer field, [doTask] fails with an [FSError], never a
    [ValueError]: the duplicate-key error of the other key or the
    missing-key error that names the first key, in the order (count,
    size), that no line resolves; (3) it is the missing-key error of that
    very tag when exactly one line starts with the other tag and that
    line has an integer field; (4) the duplicate-key error of a key is
    raised only if a line of that key follows a line of that key with an
    integer field. *)
Theorem doTask_line_without_integer (c : variant) (an_fs : FS) (w : world) :
  (forall raw v rest k,
      Py.startswith (Py.strip raw) (getattr (variant_tags c) k) = true ->
      FSSize.get v k = None ->
      Forall (fun f => Py.int f = None) (Py.split (Py.strip raw)) ->
      FSSize.scan (variant_tags c) v (map Py.strip (raw :: rest)) =
      FSSize.scan (variant_tags c) v (map Py.strip rest)) /\
  (forall info k,
      (forall l, In l (info_lines info) ->
                 Py.startswith l (getattr (variant_tags c) k) = true ->
                 Forall (fun f => Py.int f = None) (Py.split l)) ->
      FSSize.doTask (new c (capture an_fs info)) w =
      (Raise (FSError (TwoMatches (other k))), w) \/
      exists missing,
        first_unresolved (variant_tags c) (info_lines info) = Some missing /\
        FSSize.doTask (new c (capture an_fs info)) w =
        (Raise (FSError (ParseInfoFailed missing)), w)) /\
  (forall info k lo m,
      (forall l, In l (info_lines info) ->
                 Py.startswith l (getattr (variant_tags c) k) = true ->
                 Forall (fun f => Py.int f = None) (Py.split l)) ->
      filter (fun l => Py.startswith l (getattr (variant_tags c) (other k)))
             (info_lines info) = [lo] ->
      FSSize.line_value lo = Some m ->
      FSSize.doTask (new c (capture an_fs info)) w =
      (Raise (FSError (ParseInfoFailed k)), w)) /\
  (forall info k,
      FSSize.doTask (new c (capture an_fs info)) w =
      (Raise (FSError (TwoMatches k)), w) ->
      exists pre l1 mid l2 post n,
        info_lines info = pre ++ l1 :: mid ++ l2 :: post /\
        Py.startswith l1 (getattr (variant_tags c) k) = true /\
        FSSize.line_value l1 = Some n /\
        Py.startswith l2 (getattr (variant_tags c) k) = true).
Proof.
  pose proof (exclusive_variant c) as E.
  assert (Hnone : forall info k,
             (forall l, In l (info_lines info) ->
                        Py.startswith l (getattr (variant_tags c) k) = true ->
                        Forall (fun f => Py.int f = None) (Py.split l)) ->
             forall l, In l (info_lines info) ->
                       FSSize.find_key (variant_tags c) l = Some k ->
                       FSSize.line_value l = None).
  { intros info k H l Hin Hk. apply line_value_None, H; [assumption|].
    now apply find_key_startswith. }
  split; [|split; [|split]].
  - intros raw v rest k Hk Hg Hf. simpl.
    rewrite (startswith_find_key _ _ _ E Hk), Hg.
    apply line_value_None in Hf. now rewrite Hf.
  - intros info k H. rewrite doTask_capture.
    destruct (FSSize.scan (variant_tags c) FSSize.initial (info_lines info))
      as [v|k'] eqn:Hs.
    + right. rewrite (extract_scan_inl _ _ _ Hs).
      assert (Hr : resolve (variant_tags c) k (info_lines info) = None)
        by (apply resolve_None; now apply Hnone).
      unfold first_unresolved. simpl.
      destruct (resolve (variant_tags c) count (info_lines info)) eqn:Hc; simpl.
      * destruct k; [congruence|]. rewrite Hr. simpl. now exists size.
      * now exists count.
    + left. rewrite (extract_scan_inr _ _ _ Hs).
      now rewrite (scan_inr_resolved _ _ k k' (Hnone info k H) Hs).
  - intros info k lo m H Hlo Hm. rewrite doTask_capture.
    assert (Hr : resolve (variant_tags c) k (info_lines info) = None)
      by (apply resolve_None; now apply Hnone).
    assert (Ho : resolve (variant_tags c) (other k) (info_lines info) = Some m).
    { rewrite <- Hm. apply resolve_filter_one. rewrite <- Hlo.
      apply filter_ext. intros l. now apply has_key_startswith. }
    destruct (FSSize.scan (variant_tags c) FSSize.initial (info_lines info))
      as [v|k'] eqn:Hs.
    + rewrite (extract_scan_inl _ _ _ Hs).
      destruct k; simpl in Ho; now rewrite Hr, ?Ho.
    + exfalso.
      pose proof (scan_inr_resolved _ _ k k' (Hnone info k H) Hs) as ->.
      destruct (scan_inr_two_lines _ _ _ Hs)
        as (p & a & mid & b & q & x & Hq & Ha & _ & Hb).
      apply find_key_startswith in Ha, Hb.
      pose proof (filter_two
        (fun l => Py.startswith l (getattr (variant_tags c) (other k)))
        p mid q a b Ha Hb) as Hlen.
      rewrite <- Hq, Hlo in Hlen. simpl in Hlen. lia.
  - intros info k H. rewrite doTask_capture in H.
    injection H as H. apply extract_TwoMatches in H.
    destruct (scan_inr_two_lines _ _ _ H)
      as (p & a & mid & b & q & x & Hq & Ha & Hx & Hb).
    exists p, a, mid, b, q, x.
    repeat split; try assumption; now apply find_key_startswith.
Qed.

Lemma doTask_line_without_integer_witness :
  FSSize.scan (variant_tags Ext2FSSize) FSSize.initial
    (map Py.strip [lit "Block count: none"; lit "Block count: 5"]) =
  FSSize.scan (variant_tags Ext2FSSize) FSSize.initial
    (map Py.strip [lit "Block count: 5"]) /\
  (FSSize.doTask
     (new Ext2FSSize (capture blank_fs (Py.unlines [lit "Block count: none"])))
     quiet = (Raise (FSError (TwoMatches (other count))), quiet) \/
   exists missing,
     first_unresolved (variant_tags Ext2FSSize)
       (info_lines (Py.unlines [lit "Block count: none"])) = Some missing /\
     FSSize.doTask
       (new Ext2FSSize (capture blank_fs (Py.unlines [lit "Block count: none"])))
       quiet = (Raise (FSError (ParseInfoFailed missing)), quiet)) /\
  FSSize.doTask
    (new Ext2FSSize
       (capture blank_fs
          (Py.unlines [lit "Block size: 4096"; lit "Block count: none"])))
    quiet = (Raise (FSError (ParseInfoFailed count)), quiet) /\
  (exists pre l1 mid l2 post n,
      info_lines (Py.unlines [lit "Block count: 1"; lit "Block count: 5"]) =
      pre ++ l1 :: mid ++ l2 :: post /\
      Py.startswith l1 (getattr (variant_tags Ext2FSSize) count) = true /\
      FSSize.line_value l1 = Some n /\
      Py.startswith l2 (getattr (variant_tags Ext2FSSize) count) = true).
Proof.
  split; [|split; [|split]].
  - apply (proj1 (doTask_line_without_integer Ext2FSSize blank_fs quiet)
             (lit "Block count: none") FSSize.initial [lit "Block count: 5"] count).
    + reflexivity.
    + reflexivity.
    + repeat constructor.
  - apply (proj1 (proj2 (doTask_line_without_integer Ext2FSSize blank_fs quiet))
             (Py.unlines [lit "Block count: none"]) count).
    intros l [<-|[]] _. repeat constructor.
  - apply (proj1 (proj2 (proj2
             (doTask_line_without_integer Ext2FSSize blank_fs quiet)))
             (Py.unlines [lit "Block size: 4096"; lit "Block count: none"])
             count (lit "Block size: 4096") 4096).
    + intros l [<-|[<-|[]]] H; [discriminate H | repeat constructor].
    + reflexivity.
    + reflexivity.
  - apply (proj2 (proj2 (proj2
             (doTask_line_without_integer Ext2FSSize blank_fs quiet)))
             (Py.unlines [lit "Block count: 1"; lit "Block count: 5"]) count).
    reflexivity.
Defined.

(** C10, as it is worded, fails: the only line starts with the size tag
    and has no integer field, and the missing-key error names [count],
    not [size]. *)
Lemma line_without_integer_counterexample :
  Py.startswith (Py.strip (lit "Block size: none"))
                (getattr (variant_tags Ext2FSSize) size) = true /\
  Forall (fun f => Py.int f = None) (Py.split (Py.strip (lit "Block size: none"))) /\
  FSSize.doTask
    (new Ext2FSSize (capture blank_fs (Py.unlines [lit "Block size: none"])))
    quiet = (Raise (FSError (ParseInfoFailed count)), quiet) /\
  FSSize.doTask
    (new Ext2FSSize (capture blank_fs (Py.unlines [lit "Block size: none"])))
    quiet <> (Raise (FSError (ParseInfoFailed size)), quiet).
Proof.
  split; [reflexivity|]. split; [repeat constructor|].
  split; [reflexivity | discriminate].
Qed.

(** ** Readiness *)

(** C8. The readiness predicates.  [FSSize]: [unavailable] and [unready]
    are always [False], and [unable] is a message, the one about the
    missing info, exactly when the filesystem has no captured info.
    [TmpFSSize]: [unable] is always [False], [unready] is a message exactly
    when the filesystem is not mounted, and [unavailable] is a message,
    which names [df], exactly when the application was not located.  No
    message of the module is the empty string. *)
Theorem readiness_predicates :
  (forall (self : FSSize.t) (w : world),
      unavailable w self = None /\
      unready w self = None /\
      unable w self =
      match _current_info (FSSize.fs self) with
      | None => Some NoInfo
      | Some _ => None
      end /\
      ((exists m, unable w self = Some m) <->
       _current_info (FSSize.fs self) = None)) /\
  (forall (self : TmpFSSize.t) (w : world),
      unable w self = None /\
      unready w self =
      (if status (TmpFSSize.fs self) then None else Some NotMounted) /\
      ((exists m, unready w self = Some m) <->
       status (TmpFSSize.fs self) = false) /\
      unavailable w self =
      (if app_available w then None else Some (AppNotAvailable (lit "df"))) /\
      ((exists m, unavailable w self = Some m) <-> app_available w = false)) /\
  (forall m : message, template m <> EmptyString).
Proof.
  split; [|split].
  - intros self w. simpl. unfold FSSize.unable.
    repeat split; try reflexivity.
    + intros [m H]. now destruct (_current_info (FSSize.fs self)).
    + intros ->. now exists NoInfo.
  - intros self w. simpl. unfold TmpFSSize.unready, TmpFSSize.unavailable.
    repeat split; try reflexivity.
    + now destruct (status (TmpFSSize.fs self)).
    + intros [m H]. now destruct (status (TmpFSSize.fs self)).
    + intros ->. now exists NotMounted.
    + now destruct (app_available w).
    + intros [m H]. now destruct (app_available w).
    + intros ->. now exists (AppNotAvailable TmpFSSize.app_name).
  - intros []; discriminate.
Qed.

(** C5. Both tasks look at [impossible] first: when it is a message,
    [doTask] raises an [FSError] with that message and leaves the world as
    it was, so that no command was spawned.  In particular [FSSize] without
    captured info fails before it reads any text, and [TmpFSSize] on a
    filesystem that is not mounted fails without running [df]; when
    [TmpFSSize] is possible, it does run one command. *)
Theorem impossible_raises_first :
  (forall (self : FSSize.t) (w : world) (msg : message),
      impossible w self = Some msg ->
      FSSize.doTask self w = (Raise (FSError msg), w)) /\
  (forall (self : TmpFSSize.t) (w : world) (msg : message),
      impossible w self = Some msg ->
      TmpFSSize.doTask self w = (Raise (FSError msg), w)) /\
  (forall (self : FSSize.t) (w : world),
      _current_info (FSSize.fs self) = None ->
      FSSize.doTask self w = (Raise (FSError NoInfo), w)) /\
  (forall (self : TmpFSSize.t) (w : world),
      status (TmpFSSize.fs self) = false ->
      TmpFSSize.doTask self w =
      (Raise (FSError (if app_available w then NotMounted
                       else AppNotAvailable (lit "df"))), w)) /\
  (forall (self : TmpFSSize.t) (w : world),
      impossible w self = None ->
      spawned (snd (TmpFSSize.doTask self w)) =
      spawned w ++ [TmpFSSize._sizeCommand self]).
Proof.
  split; [|split; [|split; [|split]]].
  - intros self w msg H. unfold FSSize.doTask. now rewrite H.
  - intros self w msg H. unfold TmpFSSize.doTask. now rewrite H.
  - intros self w H. unfold FSSize.doTask, impossible. simpl.
    unfold FSSize.unable. now rewrite H.
  - intros self w H. unfold TmpFSSize.doTask, impossible. simpl.
    unfold TmpFSSize.unavailable, TmpFSSize.unready. rewrite H.
    now destruct (app_available w).
  - intros self w H. unfold TmpFSSize.doTask. rewrite H.
    unfold run_program_and_capture_output.
    destruct (behaviour w (TmpFSSize._sizeCommand self)) as [ret out|];
      [|reflexivity].
    destruct (negb (ret =? 0)); [reflexivity|]. cbv zeta.
    destruct (_ || _); [reflexivity|].
    now destruct (Size.of_str _).
Qed.

Lemma impossible_raises_first_witness :
  FSSize.doTask (new JFSSize blank_fs) quiet = (Raise (FSError NoInfo), quiet) /\
  TmpFSSize.doTask {| TmpFSSize.fs := blank_fs |} quiet =
  (Raise (FSError NotMounted), quiet) /\
  FSSize.doTask (new JFSSize blank_fs) quiet = (Raise (FSError NoInfo), quiet) /\
  TmpFSSize.doTask {| TmpFSSize.fs := blank_fs |} quiet =
  (Raise (FSError NotMounted), quiet) /\
  spawned
    (snd (TmpFSSize.doTask
            {| TmpFSSize.fs :=
                 {| _current_info := None; status := true;
                    systemMountpoint := lit "/mnt" |} |} quiet)) =
  [[lit "df"; lit "/mnt"; lit "--output=size"]].
Proof.
  split; [|split; [|split; [|split]]].
  - apply (proj1 impossible_raises_first). reflexivity.
  - apply (proj1 (proj2 impossible_raises_first)). reflexivity.
  - apply (proj1 (proj2 (proj2 impossible_raises_first))). reflexivity.
  - apply (proj1 (proj2 (proj2 (proj2 impossible_raises_first)))
             {| TmpFSSize.fs := blank_fs |} quiet). reflexivity.
  - apply (proj2 (proj2 (proj2 (proj2 impossible_raises_first)))
             {| TmpFSSize.fs :=
                  {| _current_info := None; status := true;
                     systemMountpoint := lit "/mnt" |} |} quiet). reflexivity.
Defined.

(** ** Running [df] *)

(** C7. When the task is possible, [doTask] raises the error that names
    the command as one that failed to execute in exactly two cases: the
    process could not be started, or it exited with a status other than
    zero; and then no size is returned. *)
Theorem tmpfs_execution_failure (self : TmpFSSize.t) (w : world) :
  impossible w self = None ->
  (fst (TmpFSSize.doTask self w) =
   Raise (FSError (ExecFailed (TmpFSSize._sizeCommand self))) <->
   (behaviour w (TmpFSSize._sizeCommand self) = OSError \/
    exists ret out,
      behaviour w (TmpFSSize._sizeCommand self) = Exited ret out /\ ret <> 0)) /\
  ((behaviour w (TmpFSSize._sizeCommand self) = OSError \/
    exists ret out,
      behaviour w (TmpFSSize._sizeCommand self) = Exited ret out /\ ret <> 0) ->
   forall s, fst (TmpFSSize.doTask self w) <> Return s).
Proof.
  intros H.
  assert (Hiff :
    fst (TmpFSSize.doTask self w) =
    Raise (FSError (ExecFailed (TmpFSSize._sizeCommand self))) <->
    (behaviour w (TmpFSSize._sizeCommand self) = OSError \/
     exists ret out,
       behaviour w (TmpFSSize._sizeCommand self) = Exited ret out /\ ret <> 0)).
  { unfold TmpFSSize.doTask. rewrite H.
    unfold run_program_and_capture_output.
    destruct (behaviour w (TmpFSSize._sizeCommand self)) as [ret out|].
    - destruct (Z.eqb_spec ret 0) as [->|Hret]; simpl.
      + split.
        * destruct (_ || _); [discriminate|].
          destruct (Size.of_str _); discriminate.
        * intros [Hb|(r & o & Hb & Hr)]; [discriminate|].
          injection Hb as <- _. contradiction.
      + split; [|reflexivity]. intros _. right. now exists ret, out.
    - simpl. split; [now left | reflexivity]. }
  split; [exact Hiff|].
  intros Hb s Hs. apply Hiff in Hb. congruence.
Qed.

Lemma tmpfs_execution_failure_witness :
  (fst (TmpFSSize.doTask
          {| TmpFSSize.fs :=
               {| _current_info := None; status := true;
                  systemMountpoint := lit "/mnt" |} |} quiet) =
   Raise (FSError (ExecFailed [lit "df"; lit "/mnt"; lit "--output=size"]))) /\
  (forall s,
      fst (TmpFSSize.doTask
             {| TmpFSSize.fs :=
                  {| _current_info := None; status := true;
                     systemMountpoint := lit "/mnt" |} |}
             {| app_available := true;
                behaviour := fun _ => Exited 2 [];
                spawned := [] |}) <> Return s).
Proof.
  split.
  - apply (proj1 (tmpfs_execution_failure
                    {| TmpFSSize.fs :=
                         {| _current_info := None; status := true;
                            systemMountpoint := lit "/mnt" |} |} quiet eq_refl)).
    left. reflexivity.
  - apply (proj2 (tmpfs_execution_failure
                    {| TmpFSSize.fs :=
                         {| _current_info := None; status := true;
                            systemMountpoint := lit "/mnt" |} |}
                    {| app_available := true;
                       behaviour := fun _ => Exited 2 [];
                       spawned := [] |} eq_refl)).
    right. exists 2, []. split; [reflexivity | discriminate].
Defined.

Lemma digit_nospace (c : ascii) (d : Z) :
  Py.digit c = Some d -> Py.isspace c = false.
Proof.
  unfold Py.digit, Py.isspace.
  destruct ((48 <=? nat_of_ascii c) && (nat_of_ascii c <=? 57))%nat eqn:H;
    [|discriminate].
  intros _. apply andb_true_iff in H as [H1 H2].
  apply Nat.leb_le in H1, H2.
  repeat match goal with
         | |- context [(?a <=? ?b)%nat] => destruct (Nat.leb_spec a b)
         | |- context [(?a =? ?b)%nat] => destruct (Nat.eqb_spec a b)
         end; simpl; try reflexivity; lia.
Qed.

Lemma underscore_nospace (c : ascii) :
  Py.is_underscore c = true -> Py.isspace c = false.
Proof.
  unfold Py.is_underscore, Py.isspace. intros H.
  apply Nat.eqb_eq in H. now rewrite H.
Qed.

Lemma digits_nospace (s : str) :
  forall acc b n, Py.digits acc b s = Some n ->
                  Forall (fun c => Py.isspace c = false) s.
Proof.
  induction s as [|c s IH]; intros acc b n; simpl; [constructor|].
  destruct (Py.digit c) as [d|] eqn:Hd.
  - intros H. constructor; [now apply (digit_nospace c d) | now apply IH in H].
  - destruct (Py.is_underscore c) eqn:Hu; [|discriminate].
    destruct b; [|discriminate]. simpl.
    intros H. constructor; [now apply underscore_nospace | now apply IH in H].
Qed.

(** What [int] accepts has, once trimmed, no whitespace inside. *)
Lemma int_trimmed (s : str) (n : Z) :
  Py.int s = Some n ->
  Forall (fun c => Py.isspace c = false) (Py.int_trim s) /\ Py.int_trim s <> [].
Proof.
  unfold Py.int. destruct (Py.int_trim s) as [|c r]; [discriminate|].
  intros H. split; [|discriminate].
  destruct (Py.is_minus c) eqn:Hm.
  - constructor.
    + unfold Py.is_minus in Hm. apply Nat.eqb_eq in Hm.
      unfold Py.isspace. now rewrite Hm.
    + destruct (Py.digits 0 false r) eqn:Hd; [|discriminate].
      now apply digits_nospace in Hd.
  - destruct (Py.is_plus c) eqn:Hp.
    + constructor.
      * unfold Py.is_plus in Hp. apply Nat.eqb_eq in Hp.
        unfold Py.isspace. now rewrite Hp.
      * now apply digits_nospace in H.
    + now apply digits_nospace in H.
Qed.

Lemma int_isspace_isspace (c : ascii) :
  Py.isspace c = false -> Py.int_isspace c = false.
Proof.
  unfold Py.isspace, Py.int_isspace. intros H.
  apply orb_false_iff in H as [H H160].
  apply orb_false_iff in H as [H H133].
  apply orb_false_iff in H as [H H32].
  apply orb_false_iff in H as [H913 _].
  now rewrite H913, H32, H133, H160.
Qed.

Lemma strip_head (s : str) (c : ascii) (r : str) :
  Py.strip s = c :: r -> Py.isspace c = false.
Proof.
  unfold Py.strip, Py.lstrip. intros H.
  destruct (rstrip_decomp (Py.dropspace s)) as [ws [_ Hws]].
  rewrite H in Hws. simpl in Hws.
  now apply (dropspace_head s c (r ++ ws)).
Qed.

Lemma strip_last (s : str) (c : ascii) (r : str) :
  rev (Py.strip s) = c :: r -> Py.isspace c = false.
Proof.
  unfold Py.strip, Py.rstrip. rewrite rev_involutive.
  apply dropspace_head.
Qed.

Lemma int_dropspace_id (x : str) :
  (forall c r, x = c :: r -> Py.isspace c = false) -> Py.int_dropspace x = x.
Proof.
  destruct x as [|c r]; [reflexivity|]. intros H. simpl.
  now rewrite (int_isspace_isspace c (H c r eq_refl)).
Qed.

(** What [str.strip] returns, [int] has nothing left to trim from. *)
Lemma int_trim_strip (s : str) : Py.int_trim (Py.strip s) = Py.strip s.
Proof.
  unfold Py.int_trim.
  rewrite (int_dropspace_id (Py.strip s)) by apply strip_head.
  rewrite (int_dropspace_id (rev (Py.strip s))) by apply strip_last.
  apply rev_involutive.
Qed.

Lemma nospace_dropspace (x : str) :
  Forall (fun c => Py.isspace c = false) x -> Py.dropspace x = x.
Proof. destruct 1 as [|c x Hc _]; simpl; [reflexivity | now rewrite Hc]. Qed.

Lemma nospace_strip (x : str) :
  Forall (fun c => Py.isspace c = false) x -> Py.strip x = x.
Proof.
  intros H. unfold Py.strip, Py.lstrip, Py.rstrip.
  rewrite (nospace_dropspace x H).
  rewrite nospace_dropspace by now apply Forall_rev.
  apply rev_involutive.
Qed.

Lemma nospace_split_aux (x : str) :
  Forall (fun c => Py.isspace c = false) x ->
  forall cur, Py.split_aux cur x = flush (rev x ++ cur).
Proof.
  induction 1 as [|c x Hc _ IH]; intros cur; simpl; [reflexivity|].
  rewrite Hc, IH. now rewrite <- app_assoc.
Qed.

Lemma nospace_split (x : str) :
  Forall (fun c => Py.isspace c = false) x -> x <> [] -> Py.split x = [x].
Proof.
  intros H Hx. unfold Py.split. rewrite (nospace_split_aux x H), app_nil_r.
  unfold flush. destruct (rev x) eqn:Hr.
  - apply (f_equal (@rev ascii)) in Hr. rewrite rev_involutive in Hr.
    now simpl in Hr.
  - now rewrite <- Hr, rev_involutive.
Qed.

(** A line whose trimmed content is an integer is that many kibibytes. *)
Lemma of_str_KiB (body : str) (n : Z) :
  Py.int (Py.strip body) = Some n ->
  Size.of_str (body ++ lit " KiB") = Some (Size.of_int (n * 1024)).
Proof.
  intros H. destruct (int_trimmed _ _ H) as [Hns Hne].
  rewrite int_trim_strip in Hns, Hne.
  unfold Size.of_str.
  change (lit " KiB") with (" "%char :: lit "KiB").
  unfold Py.split. rewrite split_aux_app_space by reflexivity.
  fold (Py.split body).
  rewrite <- (split_strip body).
  rewrite (nospace_split _ Hns Hne).
  simpl. now rewrite H.
Qed.

(** C6. When the task is possible and [df] exited with status zero:
    unless its output splits into exactly two lines of which the first,
    trimmed, is [1K-blocks], [doTask] raises the error that names the
    command as one whose output failed to parse; and when the output has
    that shape, [doTask] hands the second line, followed by the unit
    [KiB], to [Size], so that a second line whose trimmed content is the
    integer [n] gives the size of [n] kibibytes. *)
Theorem tmpfs_output_shape (self : TmpFSSize.t) (w : world) (out : str) :
  impossible w self = None ->
  behaviour w (TmpFSSize._sizeCommand self) = Exited 0 out ->
  (~ (exists header body,
         Py.splitlines out = [header; body] /\
         Py.strip header = lit "1K-blocks") ->
   fst (TmpFSSize.doTask self w) =
   Raise (FSError (ParseOutputFailed (TmpFSSize._sizeCommand self)))) /\
  (forall header body,
      Py.splitlines out = [header; body] ->
      Py.strip header = lit "1K-blocks" ->
      fst (TmpFSSize.doTask self w) =
      match Size.of_str (body ++ lit " KiB") with
      | Some s => Return s
      | None => Raise ValueError
      end /\
      (forall n, Py.int (Py.strip body) = Some n ->
                 fst (TmpFSSize.doTask self w) =
                 Return (Size.of_int (n * 1024)))).
Proof.
  intros Hi Hb.
  assert (Hdo : fst (TmpFSSize.doTask self w) =
                if negb (Nat.eqb (List.length (Py.splitlines out)) 2)
                   || negb (str_eqb (Py.strip (nth 0 (Py.splitlines out) []))
                                    (lit "1K-blocks"))
                then Raise (FSError (ParseOutputFailed (TmpFSSize._sizeCommand self)))
                else match Size.of_str (nth 1 (Py.splitlines out) [] ++ lit " KiB") with
                     | Some s => Return s
                     | None => Raise ValueError
                     end).
  { unfold TmpFSSize.doTask. rewrite Hi.
    unfold run_program_and_capture_output. rewrite Hb. simpl.
    destruct (_ || _); [reflexivity|]. now destruct (Size.of_str _). }
  split.
  - intros Hshape. rewrite Hdo.
    destruct (Py.splitlines out) as [|header [|body [|x r]]]; try reflexivity.
    unfold str_eqb. cbn [nth List.length Nat.eqb negb orb].
    destruct (list_eq_dec ascii_dec (Py.strip header) (lit "1K-blocks"))
      as [He|]; [|reflexivity].
    exfalso. apply Hshape. now exists header, body.
  - intros header body Hs Hh.
    assert (Hfst : fst (TmpFSSize.doTask self w) =
                   match Size.of_str (body ++ lit " KiB") with
                   | Some s => Return s
                   | None => Raise ValueError
                   end).
    { rewrite Hdo, Hs. unfold str_eqb. cbn [nth List.length Nat.eqb negb orb].
      destruct (list_eq_dec ascii_dec (Py.strip header) (lit "1K-blocks"));
        [reflexivity | contradiction]. }
    split; [exact Hfst|].
    intros n Hn. now rewrite Hfst, (of_str_KiB body n Hn).
Qed.

Lemma tmpfs_output_shape_witness :
  fst (TmpFSSize.doTask
         {| TmpFSSize.fs :=
              {| _current_info := None; status := true;
                 systemMountpoint := lit "/mnt" |} |}
         {| app_available := true;
            behaviour := fun _ => Exited 0 (Py.unlines [lit "garbage"; lit "1"]);
            spawned := [] |}) =
  Raise (FSError (ParseOutputFailed [lit "df"; lit "/mnt"; lit "--output=size"])) /\
  fst (TmpFSSize.doTask
         {| TmpFSSize.fs :=
              {| _current_info := None; status := true;
                 systemMountpoint := lit "/mnt" |} |}
         {| app_available := true;
            behaviour := fun _ => Exited 0 (Py.unlines [lit "1K-blocks"; lit "2048"]);
            spawned := [] |}) =
  Return (Size.of_int (2048 * 1024)).
Proof.
  split.
  - apply (proj1 (tmpfs_output_shape
                    {| TmpFSSize.fs :=
                         {| _current_info := None; status := true;
                            systemMountpoint := lit "/mnt" |} |}
                    {| app_available := true;
                       behaviour :=
                         fun _ => Exited 0 (Py.unlines [lit "garbage"; lit "1"]);
                       spawned := [] |}
                    (Py.unlines [lit "garbage"; lit "1"]) eq_refl eq_refl)).
    intros (header & body & Hs & Hh).
    injection Hs as <- _. discriminate Hh.
  - apply (proj2 (proj2 (tmpfs_output_shape
                    {| TmpFSSize.fs :=
                         {| _current_info := None; status := true;
                            systemMountpoint := lit "/mnt" |} |}
                    {| app_available := true;
                       behaviour :=
                         fun _ => Exited 0 (Py.unlines [lit "1K-blocks"; lit "2048"]);
                       spawned := [] |}
                    (Py.unlines [lit "1K-blocks"; lit "2048"]) eq_refl eq_refl)
                    (lit "1K-blocks") (lit "2048") eq_refl eq_refl) 2048).
    reflexivity.
Defined.

(** ** The concrete subclasses *)

(** C9. The tag pairs of the five subclasses, as the source spells them;
    an instance of a subclass is its tag pair and its filesystem, and
    the readiness of the task does not depend on the subclass. *)
Theorem variant_tag_pairs :
  variant_tags Ext2FSSize =
  {| of_count := lit "Block count:"; of_size := lit "Block size:" |} /\
  variant_tags JFSSize =
  {| of_count := lit "Aggregate size:"; of_size := lit "Physical block size:" |} /\
  variant_tags NTFSSize =
  {| of_count := lit "Volume Size in Clusters:"; of_size := lit "Cluster Size:" |} /\
  variant_tags ReiserFSSize =
  {| of_count := lit "Count of blocks on the device:";
     of_size := lit "Blocksize:" |} /\
  variant_tags XFSSize =
  {| of_count := lit "dblocks ="; of_size := lit "blocksize =" |} /\
  (forall (c : variant) (an_fs : FS),
      new c an_fs = {| FSSize.tags := variant_tags c; FSSize.fs := an_fs |}) /\
  (forall (c c' : variant) (an_fs : FS) (w : world),
      impossible w (new c an_fs) = impossible w (new c' an_fs)).
Proof. repeat split. Qed.

(** * Further properties of [FSSize.doTask] *)

Lemma startswith_trans (s p q : str) :
  Py.startswith s p = true -> Py.startswith p q = true ->
  Py.startswith s q = true.
Proof.
  revert s p. induction q as [|c q IH]; intros s p; [reflexivity|].
  destruct p as [|b p]; [discriminate|].
  destruct s as [|a s]; [discriminate|]. simpl.
  destruct (ascii_dec b a) as [Hba|]; [|discriminate]. subst b.
  destruct (ascii_dec c a) as [Hca|]; [|discriminate].
  apply IH.
Qed.

Lemma find_key_size (tags : _Tags) (line : str) :
  FSSize.find_key tags line = Some size <->
  Py.startswith line (of_count tags) = false /\
  Py.startswith line (of_size tags) = true.
Proof.
  unfold FSSize.find_key. simpl.
  destruct (Py.startswith line (of_count tags)),
    (Py.startswith line (of_size tags)); split; try easy; intros []; easy.
Qed.

Lemma scan_inr_iff (tags : _Tags) (lines : list str) :
  (exists k, FSSize.scan tags FSSize.initial lines = inr k) <->
  repeated tags lines.
Proof.
  split.
  - intros [k H].
    destruct (scan_inr_two_lines _ _ _ H)
      as (pre & l1 & mid & l2 & post & n & HL & H1 & Hn & H2).
    now exists pre, l1, mid, l2, post, k, n.
  - intros (pre & l1 & mid & l2 & post & k & n & -> & H1 & Hn & H2).
    now apply (scan_repeated tags pre mid post l1 l2 k n).
Qed.

Lemma extract_Return (tags : _Tags) (lines : list str) (s : Size.t) :
  extract tags lines = Return s <->
  ~ repeated tags lines /\
  exists c m,
    resolve tags count lines = Some c /\
    resolve tags size lines = Some m /\
    s = Size.of_int (c * m).
Proof.
  destruct (FSSize.scan tags FSSize.initial lines) as [v|k] eqn:Hs.
  - rewrite (extract_scan_inl _ _ _ Hs).
    assert (Hn : ~ repeated tags lines).
    { intros Hr. apply scan_inr_iff in Hr as [k Hk]. congruence. }
    destruct (resolve tags count lines) as [c|];
      [destruct (resolve tags size lines) as [m|]|].
    + split.
      * intros H. injection H as <-. split; [exact Hn|]. now exists c, m.
      * intros [_ (c' & m' & Hc & Hm & ->)]. congruence.
    + split; [discriminate|]. intros [_ (c' & m' & _ & Hm & _)]. discriminate.
    + split; [discriminate|]. intros [_ (c' & m' & Hc & _)]. discriminate.
  - rewrite (extract_scan_inr _ _ _ Hs). split; [discriminate|].
    intros [Hn _]. exfalso. apply Hn, scan_inr_iff. now exists k.
Qed.

(** X2. Whatever size [doTask] returns is the product of two integers
    read off the text: the last integer field of a line that starts with
    the count tag and the last integer field of a line that starts with
    the size tag.  The world is left as it was. *)
Theorem doTask_return_sound (self : FSSize.t) (w w' : world) (s : Size.t) :
  FSSize.doTask self w = (Return s, w') ->
  w' = w /\
  exists info lc ls c m,
    _current_info (FSSize.fs self) = Some info /\
    In lc (info_lines info) /\
    In ls (info_lines info) /\
    Py.startswith lc (of_count (FSSize.tags self)) = true /\
    Py.startswith ls (of_size (FSSize.tags self)) = true /\
    FSSize.line_value lc = Some c /\
    FSSize.line_value ls = Some m /\
    s = Size.of_int (c * m).
Proof.
  intros H.
  destruct (_current_info (FSSize.fs self)) as [info|] eqn:Hi.
  - rewrite (doTask_extract _ _ _ Hi) in H. injection H as H <-.
    split; [reflexivity|].
    apply extract_Return in H as [_ (c & m & Hc & Hm & ->)].
    destruct (resolve_Some _ _ _ _ Hc) as (p1 & lc & q1 & E1 & Kc & Vc).
    destruct (resolve_Some _ _ _ _ Hm) as (p2 & ls & q2 & E2 & Ks & Vs).
    exists info, lc, ls, c, m.
    apply find_key_startswith in Kc, Ks.
    repeat split; try assumption.
    + rewrite E1. apply in_or_app. right. now left.
    + rewrite E2. apply in_or_app. right. now left.
  - destruct (doTask_outcome self w) as [[s0 H0]|[m0 H0]].
    + exfalso. unfold FSSize.doTask, impossible in H0. simpl in H0.
      unfold FSSize.unable in H0. rewrite Hi in H0. discriminate.
    + congruence.
Qed.

Lemma doTask_return_sound_witness :
  quiet = quiet /\
  exists info lc ls c m,
    _current_info (FSSize.fs (new NTFSSize
       (capture blank_fs
          (Py.unlines [lit "Cluster Size: 4096";
                       lit "Volume Size in Clusters: 10"])))) = Some info /\
    In lc (info_lines info) /\
    In ls (info_lines info) /\
    Py.startswith lc (lit "Volume Size in Clusters:") = true /\
    Py.startswith ls (lit "Cluster Size:") = true /\
    FSSize.line_value lc = Some c /\
    FSSize.line_value ls = Some m /\
    Size.of_int 40960 = Size.of_int (c * m).
Proof.
  apply (doTask_return_sound
           (new NTFSSize
              (capture blank_fs
                 (Py.unlines [lit "Cluster Size: 4096";
                              lit "Volume Size in Clusters: 10"])))
           quiet quiet (Size.of_int 40960)).
  reflexivity.
Defined.

(** X3. For any pair of tags, [doTask] on a captured text returns the
    size [s] exactly when no line of a key follows a line of that key
    with an integer field, both keys are resolved, and [s] is the
    product of the two resolved integers: the first integer-carrying
    line of each key decides. *)
Theorem doTask_returns_iff (tags : _Tags) (an_fs : FS) (w : world)
        (info : str) (s : Size.t) :
  FSSize.doTask (task_on tags an_fs info) w = (Return s, w) <->
  ~ repeated tags (info_lines info) /\
  exists c m,
    resolve tags count (info_lines info) = Some c /\
    resolve tags size (info_lines info) = Some m /\
    s = Size.of_int (c * m).
Proof.
  rewrite (doTask_extract (task_on tags an_fs info) w info eq_refl). simpl.
  rewrite <- extract_Return. split; [now injection 1 | now intros ->].
Qed.

(** X4. First match wins, so a count tag that is a prefix of the size
    tag (the empty tag included) takes every line of the size tag: the
    size key is never resolved and [doTask] never returns a size. *)
Theorem overlapping_tags_never_return (self : FSSize.t) (w w' : world)
        (s : Size.t) :
  Py.startswith (of_size (FSSize.tags self)) (of_count (FSSize.tags self)) = true ->
  FSSize.doTask self w <> (Return s, w').
Proof.
  intros Hp H.
  destruct (_current_info (FSSize.fs self)) as [info|] eqn:Hi.
  - rewrite (doTask_extract _ _ _ Hi) in H. injection H as H _.
    apply extract_Return in H as [_ (c & m & _ & Hm & _)].
    destruct (resolve_Some _ _ _ _ Hm) as (p & ls & q & _ & Ks & _).
    apply find_key_size in Ks as [Kc Ks].
    rewrite (startswith_trans _ _ _ Ks Hp) in Kc. discriminate.
  - destruct (doTask_outcome self w) as [[s0 H0]|[m0 H0]]; [|congruence].
    unfold FSSize.doTask, impossible in H0. simpl in H0.
    unfold FSSize.unable in H0. rewrite Hi in H0. discriminate.
Qed.

Lemma overlapping_tags_never_return_witness :
  FSSize.doTask
    (task_on {| of_count := lit "Block"; of_size := lit "Block size:" |}
             blank_fs
             (Py.unlines [lit "Block count: 10"; lit "Block size: 4096"]))
    quiet <> (Return (Size.of_int 40960), quiet).
Proof.
  apply (overlapping_tags_never_return
           (task_on {| of_count := lit "Block"; of_size := lit "Block size:" |}
                    blank_fs
                    (Py.unlines [lit "Block count: 10"; lit "Block size: 4096"]))
           quiet quiet (Size.of_int 40960)).
  reflexivity.
Defined.

(** X5. For each of the five subclasses no line starts with both tags,
    and a line is filed under a key exactly when it starts with the tag
    of that key. *)
Theorem variant_tags_exclusive (c : variant) (line : str) (k : key) :
  ~ (Py.startswith line (of_count (variant_tags c)) = true /\
     Py.startswith line (of_size (variant_tags c)) = true) /\
  (FSSize.find_key (variant_tags c) line = Some k <->
   Py.startswith line (getattr (variant_tags c) k) = true).
Proof.
  pose proof (exclusive_variant c) as E. split.
  - intros [Hc Hs]. destruct E as [E1 E2].
    destruct (startswith_both _ _ _ Hc Hs); congruence.
  - split; [apply find_key_startswith | now apply startswith_find_key].
Qed.

(** X6. The duplicate check depends on the order of the lines.  Of two
    lines of one key, the first without and the second with an integer
    field, the second one counts; the other way round the line without
    integer is reported as a second match. *)
Theorem duplicate_check_order (tags : _Tags) (an_fs : FS) (w : world)
        (a b o : str) (k : key) (n m : Z) :
  Forall oneline [a; b; o] ->
  FSSize.find_key tags (Py.strip a) = Some k ->
  FSSize.line_value (Py.strip a) = None ->
  FSSize.find_key tags (Py.strip b) = Some k ->
  FSSize.line_value (Py.strip b) = Some n ->
  FSSize.find_key tags (Py.strip o) = Some (other k) ->
  FSSize.line_value (Py.strip o) = Some m ->
  FSSize.doTask (task_on tags an_fs (Py.unlines [a; b; o])) w =
  (Return (Size.of_int (match k with count => n * m | size => m * n end)), w) /\
  FSSize.doTask (task_on tags an_fs (Py.unlines [b; a; o])) w =
  (Raise (FSError (TwoMatches k)), w).
Proof.
  intros Hl Ka Va Kb Vb Ko Vo.
  assert (Hl' : Forall oneline [b; a; o]).
  { inversion Hl as [|? ? Ha Hl1]. inversion Hl1 as [|? ? Hb Hl2].
    repeat constructor; try assumption. now inversion Hl2. }
  split.
  - rewrite (doTask_unlines (task_on tags an_fs (Py.unlines [a; b; o])) w
               [a; b; o] Hl eq_refl).
    unfold extract. simpl. rewrite Ka, Kb, Ko, Va, Vb, Vo.
    destruct k; reflexivity.
  - rewrite (doTask_unlines (task_on tags an_fs (Py.unlines [b; a; o])) w
               [b; a; o] Hl' eq_refl).
    unfold extract. simpl. rewrite Ka, Kb, Vb.
    destruct k; reflexivity.
Qed.

Lemma duplicate_check_order_witness :
  FSSize.doTask
    (task_on (variant_tags JFSSize) blank_fs
       (Py.unlines [lit "Aggregate size: unknown"; lit "Aggregate size: 8 blocks";
                    lit "Physical block size: 512"]))
    quiet = (Return (Size.of_int 4096), quiet) /\
  FSSize.doTask
    (task_on (variant_tags JFSSize) blank_fs
       (Py.unlines [lit "Aggregate size: 8 blocks"; lit "Aggregate size: unknown";
                    lit "Physical block size: 512"]))
    quiet = (Raise (FSError (TwoMatches count)), quiet).
Proof.
  apply (duplicate_check_order (variant_tags JFSSize) blank_fs quiet
           (lit "Aggregate size: unknown") (lit "Aggregate size: 8 blocks")
           (lit "Physical block size: 512") count 8 512);
    try reflexivity.
  apply onelineb_sound. reflexivity.
Defined.

(** X7. The first repetition decides: when the lines before [l] hold no
    repetition and resolve the key of [l], [doTask] raises the
    duplicate-key error of that key, whatever follows [l]. *)
Theorem first_repetition_decides (tags : _Tags) (an_fs : FS) (w : world)
        (info : str) (pre post : list str) (l : str) (k : key) (n : Z) :
  info_lines info = pre ++ l :: post ->
  ~ repeated tags pre ->
  resolve tags k pre = Some n ->
  FSSize.find_key tags l = Some k ->
  FSSize.doTask (task_on tags an_fs info) w =
  (Raise (FSError (TwoMatches k)), w).
Proof.
  intros HL Hn Hr Hk.
  rewrite (doTask_extract (task_on tags an_fs info) w info eq_refl). simpl.
  rewrite HL. apply f_equal2; [|reflexivity].
  apply extract_scan_inr. rewrite scan_app.
  destruct (FSSize.scan tags FSSize.initial pre) as [v|k'] eqn:Hs.
  - simpl. rewrite Hk.
    rewrite (scan_inl _ _ _ _ Hs k), initial_None, Hr. reflexivity.
  - exfalso. apply Hn, scan_inr_iff. now exists k'.
Qed.

Lemma not_repeated_single (tags : _Tags) (l : str) : ~ repeated tags [l].
Proof.
  intros (pre & l1 & mid & l2 & post & k & n & H & _).
  apply (f_equal (@List.length str)) in H.
  rewrite length_app in H. simpl in H. rewrite length_app in H. simpl in H. lia.
Qed.

Lemma first_repetition_decides_witness :
  FSSize.doTask
    (task_on (variant_tags XFSSize) blank_fs
       (Py.unlines [lit "dblocks = 10"; lit "dblocks = 20"; lit "blocksize = 1";
                    lit "blocksize = 2"]))
    quiet = (Raise (FSError (TwoMatches count)), quiet).
Proof.
  apply (first_repetition_decides (variant_tags XFSSize) blank_fs quiet
           (Py.unlines [lit "dblocks = 10"; lit "dblocks = 20"; lit "blocksize = 1";
                        lit "blocksize = 2"])
           [lit "dblocks = 10"] [lit "blocksize = 1"; lit "blocksize = 2"]
           (lit "dblocks = 20") count 10).
  - reflexivity.
  - apply not_repeated_single.
  - reflexivity.
  - reflexivity.
Defined.

(** ** Line endings and empty texts *)

Lemma splitlines_aux_crlf (cur l rest : str) :
  oneline l ->
  Py.splitlines_aux cur (l ++ CR :: Py.LF :: rest) =
  (rev cur ++ l) :: Py.splitlines_aux [] rest.
Proof.
  intros Hl. revert cur.
  induction Hl as [|c l Hc _ IH]; intros cur.
  - simpl. now rewrite app_nil_r.
  - cbn [app Py.splitlines_aux].
    rewrite (cr_is_linebreak c Hc), Hc, IH. simpl.
    now rewrite <- app_assoc.
Qed.

Lemma splitlines_unlines_crlf (ls : list str) :
  Forall oneline ls -> Py.splitlines (unlines_crlf ls) = ls.
Proof.
  unfold Py.splitlines, unlines_crlf.
  induction 1 as [|l ls Hl _ IH]; simpl; [reflexivity|].
  rewrite <- app_assoc. simpl.
  rewrite splitlines_aux_crlf by assumption. simpl. now rewrite IH.
Qed.

Lemma splitlines_aux_oneline (l : str) :
  oneline l -> forall cur, Py.splitlines_aux cur l = flush (rev l ++ cur).
Proof.
  induction 1 as [|c l Hc _ IH]; intros cur; [reflexivity|].
  cbn [Py.splitlines_aux]. rewrite (cr_is_linebreak c Hc), Hc, IH.
  simpl. now rewrite <- app_assoc.
Qed.

Lemma splitlines_unlines_app (ls : list str) (rest : str) :
  Forall oneline ls ->
  Py.splitlines (Py.unlines ls ++ rest) = ls ++ Py.splitlines rest.
Proof.
  unfold Py.splitlines, Py.unlines.
  induction 1 as [|l ls Hl _ IH]; simpl; [reflexivity|].
  rewrite <- !app_assoc. simpl.
  rewrite splitlines_aux_line by assumption. simpl. now rewrite IH.
Qed.

(** X8. The line ending is of no account: a text whose lines end in
    CR LF gives what the same lines ending in LF give, and so does a
    text whose last line is not closed at all. *)
Theorem line_endings (tags : _Tags) (an_fs : FS) (w : world) (ls : list str) :
  Forall oneline ls ->
  FSSize.doTask (task_on tags an_fs (unlines_crlf ls)) w =
  FSSize.doTask (task_on tags an_fs (Py.unlines ls)) w /\
  (forall last,
      oneline last -> last <> [] ->
      FSSize.doTask (task_on tags an_fs (Py.unlines ls ++ last)) w =
      FSSize.doTask (task_on tags an_fs (Py.unlines (ls ++ [last]))) w).
Proof.
  intros Hl. split.
  - rewrite (doTask_extract (task_on tags an_fs (unlines_crlf ls)) w _ eq_refl).
    rewrite (doTask_extract (task_on tags an_fs (Py.unlines ls)) w _ eq_refl).
    unfold info_lines.
    now rewrite splitlines_unlines_crlf, splitlines_unlines.
  - intros last Hlast Hne.
    rewrite (doTask_extract (task_on tags an_fs (Py.unlines ls ++ last)) w _ eq_refl).
    rewrite (doTask_extract (task_on tags an_fs (Py.unlines (ls ++ [last]))) w _
               eq_refl).
    unfold info_lines.
    rewrite splitlines_unlines_app by assumption.
    rewrite splitlines_unlines
      by (apply Forall_app; split; [assumption | now constructor]).
    unfold Py.splitlines. rewrite (splitlines_aux_oneline last Hlast), app_nil_r.
    unfold flush. destruct (rev last) eqn:Hr.
    + apply (f_equal (@rev ascii)) in Hr. rewrite rev_involutive in Hr.
      now simpl in Hr.
    + now rewrite <- Hr, rev_involutive.
Qed.

Lemma line_endings_witness :
  FSSize.doTask
    (task_on (variant_tags XFSSize) blank_fs
       (unlines_crlf [lit "blocksize = 4096"; lit "dblocks = 2"])) quiet =
  FSSize.doTask
    (task_on (variant_tags XFSSize) blank_fs
       (Py.unlines [lit "blocksize = 4096"; lit "dblocks = 2"])) quiet /\
  FSSize.doTask
    (task_on (variant_tags XFSSize) blank_fs
       (Py.unlines [lit "blocksize = 4096"] ++ lit "dblocks = 2")) quiet =
  FSSize.doTask
    (task_on (variant_tags XFSSize) blank_fs
       (Py.unlines ([lit "blocksize = 4096"] ++ [lit "dblocks = 2"]))) quiet.
Proof.
  split.
  - apply (proj1 (line_endings (variant_tags XFSSize) blank_fs quiet
                    [lit "blocksize = 4096"; lit "dblocks = 2"]
                    (onelineb_sound [lit "blocksize = 4096"; lit "dblocks = 2"]
                                    eq_refl))).
  - apply (proj2 (line_endings (variant_tags XFSSize) blank_fs quiet
                    [lit "blocksize = 4096"]
                    (onelineb_sound [lit "blocksize = 4096"] eq_refl))).
    + assert (H : Forall oneline [lit "dblocks = 2"])
        by (apply onelineb_sound; reflexivity).
      now inversion H.
    + discriminate.
Defined.

Lemma splitlines_aux_Forall (P : ascii -> Prop) (n : nat) :
  forall s cur,
    (List.length s <= n)%nat -> Forall P s -> Forall P cur ->
    Forall (Forall P) (Py.splitlines_aux cur s).
Proof.
  induction n as [|n IH]; intros s cur Hn Hs Hcur.
  - destruct s; [|simpl in Hn; lia].
    simpl. destruct cur; [constructor|].
    constructor; [now apply Forall_rev | constructor].
  - assert (Hrev : Forall P (rev cur)) by now apply Forall_rev.
    destruct s as [|c s]; simpl in Hn.
    + simpl. destruct cur; [constructor|].
      constructor; [assumption | constructor].
    + inversion Hs as [|? ? Hc Hs']; subst.
      cbn [Py.splitlines_aux].
      destruct (Py.is_cr c).
      * destruct s as [|d s''].
        -- constructor; [assumption|]. apply IH; [simpl; lia | | ]; constructor.
        -- inversion Hs' as [|? ? Hd Hs'']; subst. simpl in Hn.
           destruct (Py.is_lf d).
           ++ constructor; [assumption|].
              apply IH; [lia | assumption | constructor].
           ++ constructor; [assumption|].
              apply IH; [simpl; lia | assumption | constructor].
      * destruct (Py.islinebreak c).
        -- constructor; [assumption|].
           apply IH; [lia | assumption | constructor].
        -- apply IH; [lia | assumption | now constructor].
Qed.

Lemma strip_blank (l : str) : blank l -> Py.strip l = [].
Proof.
  intros H. unfold Py.strip, Py.lstrip. now rewrite (dropspace_blank l H).
Qed.

Lemma startswith_nil (p : str) : p <> [] -> Py.startswith [] p = false.
Proof. destruct p; [contradiction | reflexivity]. Qed.

(** X9. A text that is empty or holds nothing but whitespace resolves
    no key: with tags that are not empty, [doTask] raises the missing-key
    error, which names [count], the first key of [_tags]. *)
Theorem blank_text_misses_count (tags : _Tags) (an_fs : FS) (w : world)
        (info : str) :
  of_count tags <> [] ->
  of_size tags <> [] ->
  blank info ->
  FSSize.doTask (task_on tags an_fs info) w =
  (Raise (FSError (ParseInfoFailed count)), w).
Proof.
  intros Hc Hs Hb.
  rewrite (doTask_extract (task_on tags an_fs info) w info eq_refl). simpl.
  assert (Hlines : Forall (fun l => FSSize.find_key tags l = None)
                          (info_lines info)).
  { unfold info_lines, Py.splitlines.
    pose proof (splitlines_aux_Forall (fun c => Py.isspace c = true)
                  (List.length info) info [] (le_n _) Hb (Forall_nil _)) as H.
    induction H as [|l ls Hl _ IH]; simpl; constructor; [|exact IH].
    rewrite (strip_blank l Hl). apply find_key_None.
    split; now apply startswith_nil. }
  assert (Hscan : forall v, FSSize.scan tags v (info_lines info) = inl v).
  { induction Hlines as [|l ls Hl _ IH]; intros v; simpl; [reflexivity|].
    now rewrite Hl. }
  unfold extract. now rewrite Hscan.
Qed.

Lemma blank_text_misses_count_witness :
  FSSize.doTask (task_on (variant_tags ReiserFSSize) blank_fs []) quiet =
  (Raise (FSError (ParseInfoFailed count)), quiet) /\
  FSSize.doTask
    (task_on (variant_tags ReiserFSSize) blank_fs
       (Py.unlines [lit "   "; lit ""; lit " "])) quiet =
  (Raise (FSError (ParseInfoFailed count)), quiet).
Proof.
  split.
  - apply (blank_text_misses_count (variant_tags ReiserFSSize) blank_fs quiet []);
      [discriminate | discriminate | constructor].
  - apply (blank_text_misses_count (variant_tags ReiserFSSize) blank_fs quiet
             (Py.unlines [lit "   "; lit ""; lit " "]));
      [discriminate | discriminate | repeat constructor].
Defined.

(** * Further properties of [TmpFSSize] *)

Lemma str_eqb_eq (a b : str) : str_eqb a b = true <-> a = b.
Proof.
  unfold str_eqb. destruct (list_eq_dec ascii_dec a b); split; congruence.
Qed.

(** X10. [TmpFSSize.doTask] returns a size only when [df] was located,
    the filesystem is mounted, the command exited with status zero and
    printed exactly two lines of which the first, trimmed, is
    [1K-blocks]; the size is what [Size] makes of the second line and the
    unit [KiB], and exactly one command, the size command, was spawned. *)
Theorem tmpfs_return_sound (self : TmpFSSize.t) (w w' : world) (s : Size.t) :
  TmpFSSize.doTask self w = (Return s, w') ->
  TmpFSSize.available w = true /\
  status (TmpFSSize.fs self) = true /\
  spawned w' = spawned w ++ [TmpFSSize._sizeCommand self] /\
  exists out header body,
    behaviour w (TmpFSSize._sizeCommand self) = Exited 0 out /\
    Py.splitlines out = [header; body] /\
    Py.strip header = lit "1K-blocks" /\
    Size.of_str (body ++ lit " KiB") = Some s.
Proof.
  intros H. unfold TmpFSSize.doTask in H.
  destruct (impossible w self) eqn:Hi; [discriminate|].
  unfold run_program_and_capture_output in H.
  destruct (behaviour w (TmpFSSize._sizeCommand self)) as [ret out|] eqn:Hb;
    [|discriminate].
  destruct (Z.eqb_spec ret 0) as [->|]; cbn [negb] in H; [|discriminate].
  cbv zeta in H.
  destruct (negb (Nat.eqb (List.length (Py.splitlines out)) 2)
            || negb (str_eqb (Py.strip (nth 0 (Py.splitlines out) []))
                             (lit "1K-blocks"))) eqn:Hshape; [discriminate|].
  destruct (Size.of_str (nth 1 (Py.splitlines out) [] ++ lit " KiB"))
    as [s0|] eqn:Hs; [|discriminate].
  injection H as <- <-.
  apply orb_false_iff in Hshape as [Hlen Hhead].
  apply negb_false_iff in Hlen, Hhead.
  apply Nat.eqb_eq in Hlen. apply str_eqb_eq in Hhead.
  unfold impossible in Hi. cbn [unavailable unready unable TmpFSSize.task] in Hi.
  unfold TmpFSSize.unavailable, TmpFSSize.unready, TmpFSSize.unable in Hi.
  unfold TmpFSSize.available.
  destruct (app_available w); [|discriminate Hi].
  destruct (status (TmpFSSize.fs self)); [|discriminate Hi].
  split; [reflexivity|]. split; [reflexivity|]. split; [reflexivity|].
  destruct (Py.splitlines out) as [|header [|body [|x r]]] eqn:Hsl;
    try discriminate Hlen.
  cbn [nth] in Hhead, Hs.
  exists out, header, body. repeat split; assumption.
Qed.

Lemma tmpfs_return_sound_witness :
  TmpFSSize.available
    {| app_available := true;
       behaviour := fun _ => Exited 0 (Py.unlines [lit "1K-blocks"; lit "8"]);
       spawned := [] |} = true /\
  status {| _current_info := None; status := true;
            systemMountpoint := lit "/run" |} = true /\
  spawned
    {| app_available := true;
       behaviour := fun _ => Exited 0 (Py.unlines [lit "1K-blocks"; lit "8"]);
       spawned := [[lit "df"; lit "/run"; lit "--output=size"]] |} =
  [] ++ [[lit "df"; lit "/run"; lit "--output=size"]] /\
  exists out header body,
    Exited 0 (Py.unlines [lit "1K-blocks"; lit "8"]) = Exited 0 out /\
    Py.splitlines out = [header; body] /\
    Py.strip header = lit "1K-blocks" /\
    Size.of_str (body ++ lit " KiB") = Some (Size.of_int 8192).
Proof.
  apply (tmpfs_return_sound
           {| TmpFSSize.fs :=
                {| _current_info := None; status := true;
                   systemMountpoint := lit "/run" |} |}
           {| app_available := true;
              behaviour := fun _ => Exited 0 (Py.unlines [lit "1K-blocks"; lit "8"]);
              spawned := [] |}
           {| app_available := true;
              behaviour := fun _ => Exited 0 (Py.unlines [lit "1K-blocks"; lit "8"]);
              spawned := [[lit "df"; lit "/run"; lit "--output=size"]] |}
           (Size.of_int 8192)).
  reflexivity.
Defined.

(** X12. Availability and readiness agree.  [FSSize] is always available
    and is possible exactly when info was captured; [TmpFSSize] is
    available exactly when [unavailable] is [False], and possible exactly
    when it is available and the filesystem is mounted. *)
Theorem possible_iff :
  (forall (self : FSSize.t) (w : world),
      FSSize.available = true /\
      (impossible w self = None <->
       exists info, _current_info (FSSize.fs self) = Some info)) /\
  (forall (self : TmpFSSize.t) (w : world),
      (TmpFSSize.available w = true <-> unavailable w self = None) /\
      (impossible w self = None <->
       TmpFSSize.available w = true /\ status (TmpFSSize.fs self) = true)).
Proof.
  split.
  - intros self w. split; [reflexivity|].
    unfold impossible. simpl. unfold FSSize.unable.
    destruct (_current_info (FSSize.fs self)) as [info|]; simpl.
    + split; [now exists info | reflexivity].
    + split; [discriminate | intros [info H]; discriminate].
  - intros self w. unfold impossible, TmpFSSize.available. simpl.
    unfold TmpFSSize.unavailable, TmpFSSize.unready.
    destruct (app_available w), (status (TmpFSSize.fs self)); simpl;
      repeat split; try reflexivity; try discriminate; intros []; discriminate.
Qed.

(** * The outcomes of [FSSize.doTask], in full *)

(** X1. [FSSize.doTask] returns a size or raises an [FSError], and in
    both cases leaves the world as it was: [splitlines] is never called
    on a missing info and the product is never formed from an unset
    value. *)
Theorem fssize_raises_only_FSError (self : FSSize.t) (w : world) :
  (exists s, FSSize.doTask self w = (Return s, w)) \/
  (exists m, FSSize.doTask self w = (Raise (FSError m), w)).
Proof.
  destruct (_current_info (FSSize.fs self)) as [info|] eqn:Hi.
  - rewrite (doTask_extract _ _ _ Hi). unfold extract.
    destruct (FSSize.scan (FSSize.tags self) FSSize.initial (info_lines info))
      as [v|k]; [|right; now exists (TwoMatches k)].
    destruct (FSSize.get v count) as [c|];
      [|right; now exists (ParseInfoFailed count)].
    destruct (FSSize.get v size) as [m|].
    + left. now exists (Size.of_int (c * m)).
    + right. now exists (ParseInfoFailed size).
  - right. exists NoInfo. unfold FSSize.doTask, impossible.
    cbn [unavailable unready unable FSSize.task].
    unfold FSSize.unable. now rewrite Hi.
Qed.

(** X13. The two errors of the scan, for any pair of tags: the
    duplicate-key error is raised exactly when some line of a key follows
    a line of that key with an integer field; the missing-key error that
    names [k] is raised exactly when there is no such repetition and [k]
    is the first key, in the order (count, size), that no line
    resolves. *)
Theorem doTask_errors_iff (tags : _Tags) (an_fs : FS) (w : world) (info : str) :
  ((exists k, FSSize.doTask (task_on tags an_fs info) w =
              (Raise (FSError (TwoMatches k)), w)) <->
   repeated tags (info_lines info)) /\
  (forall k,
      FSSize.doTask (task_on tags an_fs info) w =
      (Raise (FSError (ParseInfoFailed k)), w) <->
      ~ repeated tags (info_lines info) /\
      first_unresolved tags (info_lines info) = Some k).
Proof.
  rewrite (doTask_extract (task_on tags an_fs info) w info eq_refl). simpl.
  split.
  - rewrite <- scan_inr_iff. split; intros [k H]; exists k.
    + injection H as H. now apply extract_TwoMatches.
    + now rewrite (extract_scan_inr _ _ _ H).
  - intros k.
    destruct (FSSize.scan tags FSSize.initial (info_lines info)) as [v|k'] eqn:Hs.
    + assert (Hn : ~ repeated tags (info_lines info)).
      { intros Hr. apply scan_inr_iff in Hr as [k0 Hk0]. congruence. }
      rewrite (extract_scan_inl _ _ _ Hs). unfold first_unresolved. simpl.
      destruct (resolve tags count (info_lines info)) as [c|]; simpl.
      * destruct (resolve tags size (info_lines info)) as [m|]; simpl.
        -- split; [discriminate | intros [_ H]; discriminate].
        -- split.
           ++ intros H. injection H as <-. now split.
           ++ intros [_ H]. injection H as <-. reflexivity.
      * split.
        -- intros H. injection H as <-. now split.
        -- intros [_ H]. injection H as <-. reflexivity.
    + rewrite (extract_scan_inr _ _ _ Hs). split; [discriminate|].
      intros [Hn _]. exfalso. apply Hn, scan_inr_iff. now exists k'.
Qed.
